(** * Third-party summary audit (lighthouse-core/audits/third-party-summary.js)

    A shallow embedding of [ThirdPartySummary]: the safe entity lookup,
    the per-entity aggregation of transfer bytes and main-thread time,
    and the audit that turns the aggregate into sorted table rows, grand
    totals and an informative score.

    Modelling conventions.
    - A JavaScript [number] is idealised as an exact rational ([Q]); sums
      are compared with [==] ([Qeq]) where their order may differ, and with
      Leibniz equality on concrete inputs.  Where the rounding of doubles
      decides a statement, module [Binary64] has the same functions on
      binary64 floating-point numbers.
    - A call that may throw returns a [Completion]: [Normal v] or
      [Thrown msg]; [try { .. } catch (_) { .. }] is [tryCatch].
    - The JavaScript [Map] keyed by entity objects is an association list
      in insertion order, keys compared by object identity.
    - The knowledge base ([third-party-web]) and the two helpers of
      [BootupTime] are parameters of the development. *)

From Stdlib Require Import List String QArith Lqa Floats Permutation Sorted.
Import ListNotations.

Local Open Scope Q_scope.

(** ** Completions: normal return or a thrown exception *)

Inductive Completion (A : Type) : Type :=
| Normal (value : A)
| Thrown (error : string).

Arguments Normal {A} value.
Arguments Thrown {A} error.

Definition bind {A B : Type} (c : Completion A) (k : A -> Completion B)
  : Completion B :=
  match c with
  | Normal v => k v
  | Thrown e => Thrown e
  end.

(** [try { body } catch (e) { handler e }] *)
Definition tryCatch {A : Type} (body : Completion A)
  (handler : string -> Completion A) : Completion A :=
  match body with
  | Normal v => Normal v
  | Thrown e => handler e
  end.

Notation "x <- c ;; k" := (bind c (fun x => k))
  (at level 61, c at next level, right associativity).

(** [for (const item of items) { state = body state item }]; an exception
    thrown by the body leaves the loop. *)
Fixpoint forOf {A S : Type} (body : S -> A -> Completion S)
  (items : list A) (state : S) : Completion S :=
  match items with
  | [] => Normal state
  | item :: rest => state' <- body state item ;; forOf body rest state'
  end.

(** ** [Array.prototype.sort] with a comparison function

    The engine's sort is stable; for a comparison function that is a
    consistent ordering there is one stable sorted arrangement, which a
    stable insertion sort computes.  [compareFn a b > 0] sorts [a] after
    [b]; otherwise [a], which came first, stays first. *)

Fixpoint insertSorted {A : Type} (compareFn : A -> A -> Q) (a : A)
  (sorted : list A) : list A :=
  match sorted with
  | [] => [a]
  | b :: rest =>
      match compareFn a b ?= 0 with
      | Gt => b :: insertSorted compareFn a rest
      | _ => a :: sorted
      end
  end.

Fixpoint Array_sort {A : Type} (compareFn : A -> A -> Q) (array : list A)
  : list A :=
  match array with
  | [] => []
  | a :: rest => insertSorted compareFn a (Array_sort compareFn rest)
  end.

(** Sum of a list of numbers, used to state totals. *)
Definition sumOf (values : list Q) : Q := fold_right Qplus 0 values.

(** ** Data *)

Abbreviation number := Q (only parsing).

(** LH.Artifacts.NetworkRequest, the fields the audit reads. *)
Record NetworkRequest : Type := {
  request_url : string;
  request_transferSize : number;
  request_resourceType : string
}.

(** LH.Artifacts.TaskNode, the fields the audit and its helper read. *)
Record TaskNode : Type := {
  task_selfTime : number;
  task_attributableURLs : list string
}.

(** The value type of the aggregate: [{mainThreadTime, transferSize}]. *)
Record EntityStats : Type := {
  stats_mainThreadTime : number;
  stats_transferSize : number
}.

(** LH.Audit.Details.LinkValue *)
Record LinkValue : Type := {
  link_type : string;
  link_text : string;
  link_url : string
}.

(** One row of the table. *)
Record Row : Type := {
  entity : LinkValue;
  transferSize : number;
  mainThreadTime : number
}.

Record Summary : Type := {
  wastedBytes : number;
  wastedMs : number
}.

(** A table heading; the localised [text] is left out. *)
Record Heading : Type := {
  heading_key : string;
  heading_itemType : string;
  heading_granularity : option number
}.

Record TableDetails : Type := {
  details_type : string;
  details_headings : list Heading;
  items : list Row;
  summary : Summary
}.

(** LH.Audit.Product *)
Record Product : Type := {
  score : number;
  details : TableDetails
}.

Record ThrottlingSettings : Type := {
  cpuSlowdownMultiplier : number
}.

Record Settings : Type := {
  throttlingMethod : string;
  throttling : ThrottlingSettings
}.

(** LH.Audit.Context: [settings] may be missing. *)
Record Context : Type := {
  context_settings : option Settings
}.

(** The computed artifacts the audit awaits before it aggregates. *)
Record Artifacts : Type := {
  artifacts_networkRecords : list NetworkRequest;
  artifacts_mainThreadTasks : list TaskNode
}.

(** Modelled from the spec: [Audit.makeTableDetails] (audit.js is not part
    of the sources at hand) wraps the headings, the ranked rows and the
    summary into the report's table schema. *)
Definition makeTableDetails (headings : list Heading) (results : list Row)
  (summary : Summary) : TableDetails :=
  {| details_type := "table";
     details_headings := headings;
     items := results;
     summary := summary |}.

(** [Number(b)] for a boolean. *)
Definition Number_of_bool (b : bool) : number := if b then 1 else 0.

(** ** A small knowledge base for the worked examples *)

Module Fixture.

Inductive Entity : Type := GoogleAnalytics | Facebook | Anonymous.

Definition Entity_eq_dec (a b : Entity) : {a = b} + {a <> b}.
Proof. decide equality. Defined.

Definition name (e : Entity) : string :=
  match e with
  | GoogleAnalytics => "Google Analytics"
  | Facebook => "Facebook"
  | Anonymous => "Anonymous"
  end.

Definition homepage (e : Entity) : option string :=
  match e with
  | GoogleAnalytics => Some "https://www.google.com/analytics/analytics/"%string
  | Facebook => Some "https://www.facebook.com"%string
  | Anonymous => None
  end.

(** Throws on a string with no domain, as the library does. *)
Definition getEntity (url : string) : Completion (option Entity) :=
  if String.eqb url "https://www.google-analytics.com/analytics.js" then
    Normal (Some GoogleAnalytics)
  else if String.eqb url "https://www.google-analytics.com/collect" then
    Normal (Some GoogleAnalytics)
  else if String.eqb url "https://connect.facebook.net/sdk.js" then
    Normal (Some Facebook)
  else if String.eqb url "https://cdn.anonymous.test/a.js" then
    Normal (Some Anonymous)
  else if String.eqb url "https://example.com/" then
    Normal None
  else
    Thrown "Unable to find domain".

Definition getJavaScriptURLs (records : list NetworkRequest) : list string :=
  map request_url
    (filter (fun r => String.eqb (request_resourceType r) "Script") records).

Definition getAttributableURLForTask (task : TaskNode)
  (jsURLs : list string) : string :=
  match
    find (fun u => existsb (String.eqb u) jsURLs) (task_attributableURLs task)
  with
  | Some u => u
  | None =>
      match task_attributableURLs task with
      | u :: _ => u
      | [] => "Other"
      end
  end.

(** Sample records and tasks. *)
Definition analyticsScript : NetworkRequest :=
  {| request_url := "https://www.google-analytics.com/analytics.js";
     request_transferSize := 100;
     request_resourceType := "Script" |}.

Definition analyticsBeacon : NetworkRequest :=
  {| request_url := "https://www.google-analytics.com/collect";
     request_transferSize := 200;
     request_resourceType := "XHR" |}.

Definition facebookScript : NetworkRequest :=
  {| request_url := "https://connect.facebook.net/sdk.js";
     request_transferSize := 204800;
     request_resourceType := "Script" |}.

Definition notAUrl : NetworkRequest :=
  {| request_url := "not a url";
     request_transferSize := 500;
     request_resourceType := "Other" |}.

Definition analyticsTask (selfTime : number) : TaskNode :=
  {| task_selfTime := selfTime;
     task_attributableURLs :=
       ["https://www.google-analytics.com/analytics.js"%string] |}.

Definition anonymousTask : TaskNode :=
  {| task_selfTime := 7 # 2;
     task_attributableURLs := ["https://cdn.anonymous.test/a.js"%string] |}.

(** A task with no attributable URL, charged to the string "Other". *)
Definition otherTask : TaskNode :=
  {| task_selfTime := 30;
     task_attributableURLs := [] |}.

End Fixture.

(** ** The audit on binary64 doubles

    The functions of the audit once more, with every [number] a binary64
    double and [+], [*], [/], [-] the operations of IEEE 754, as the
    engine computes them.  Sums of doubles depend on the order of the
    additions; statements about that order are made on these. *)

Module Binary64.

Record NetworkRequest : Type := {
  request_url : string;
  request_transferSize : float;
  request_resourceType : string
}.

Record TaskNode : Type := {
  task_selfTime : float;
  task_attributableURLs : list string
}.

Record EntityStats : Type := {
  stats_mainThreadTime : float;
  stats_transferSize : float
}.

Record Row : Type := {
  entity : LinkValue;
  transferSize : float;
  mainThreadTime : float
}.

Record Summary : Type := {
  wastedBytes : float;
  wastedMs : float
}.

Record Heading : Type := {
  heading_key : string;
  heading_itemType : string;
  heading_granularity : option float
}.

Record TableDetails : Type := {
  details_type : string;
  details_headings : list Heading;
  items : list Row;
  summary : Summary
}.

Record Product : Type := {
  score : float;
  details : TableDetails
}.

(** Modelled from the spec: [Audit.makeTableDetails] (audit.js is not part
    of the sources at hand) wraps the headings, the ranked rows and the
    summary into the report's table schema. *)
Definition makeTableDetails (headings : list Heading) (results : list Row)
  (summary : Summary) : TableDetails :=
  {| details_type := "table";
     details_headings := headings;
     items := results;
     summary := summary |}.

Definition Number_of_bool (b : bool) : float :=
  if b then 1%float else 0%float.

(** [Array.prototype.sort]: [compareFn a b > 0] sorts [a] after [b]; any
    other value, NaN too, leaves [a] first. *)
Fixpoint insertSorted {A : Type} (compareFn : A -> A -> float) (a : A)
  (sorted : list A) : list A :=
  match sorted with
  | [] => [a]
  | b :: rest =>
      if PrimFloat.ltb 0 (compareFn a b)
      then b :: insertSorted compareFn a rest
      else a :: sorted
  end.

Fixpoint Array_sort {A : Type} (compareFn : A -> A -> float) (array : list A)
  : list A :=
  match array with
  | [] => []
  | a :: rest => insertSorted compareFn a (Array_sort compareFn rest)
  end.

(** The sum of a list of doubles, added from left to right from 0. *)
Definition sumLeft (values : list float) : float :=
  fold_left PrimFloat.add values 0%float.

Section Audit.

Variable ThirdPartyEntity : Type.
Variable entity_eq_dec :
  forall a b : ThirdPartyEntity, {a = b} + {a <> b}.
Variable entity_name : ThirdPartyEntity -> string.
Variable entity_homepage : ThirdPartyEntity -> option string.
Variable thirdPartyWeb_getEntity :
  string -> Completion (option ThirdPartyEntity).
Variable getJavaScriptURLs : list NetworkRequest -> list string.
Variable getAttributableURLForTask : TaskNode -> list string -> string.

Definition EntityMap : Type := list (ThirdPartyEntity * EntityStats).

Fixpoint Map_get (entities : EntityMap) (key : ThirdPartyEntity)
  : option EntityStats :=
  match entities with
  | [] => None
  | (k, v) :: rest =>
      if entity_eq_dec key k then Some v else Map_get rest key
  end.

Fixpoint Map_set (entities : EntityMap) (key : ThirdPartyEntity)
  (value : EntityStats) : EntityMap :=
  match entities with
  | [] => [(key, value)]
  | (k, v) :: rest =>
      if entity_eq_dec key k then (k, value) :: rest
      else (k, v) :: Map_set rest key value
  end.

Definition getEntitySafe (url : string)
  : Completion (option ThirdPartyEntity) :=
  tryCatch (thirdPartyWeb_getEntity url) (fun _ => Normal None).

Definition getOrZero (entities : EntityMap) (key : ThirdPartyEntity)
  : EntityStats :=
  match Map_get entities key with
  | Some entityStats => entityStats
  | None => {| stats_mainThreadTime := 0; stats_transferSize := 0 |}
  end.

Definition addTransfer (entities : EntityMap) (request : NetworkRequest)
  : Completion EntityMap :=
  found <- getEntitySafe (request_url request) ;;
  match found with
  | None => Normal entities
  | Some entity =>
      let entityStats := getOrZero entities entity in
      let entityStats :=
        {| stats_mainThreadTime := stats_mainThreadTime entityStats;
           stats_transferSize :=
             PrimFloat.add (stats_transferSize entityStats)
               (request_transferSize request) |}
      in
      Normal (Map_set entities entity entityStats)
  end.

Definition addTask (jsURLs : list string) (cpuMultiplier : float)
  (entities : EntityMap) (task : TaskNode) : Completion EntityMap :=
  let attributeableURL := getAttributableURLForTask task jsURLs in
  found <- getEntitySafe attributeableURL ;;
  match found with
  | None => Normal entities
  | Some entity =>
      let entityStats := getOrZero entities entity in
      let entityStats :=
        {| stats_mainThreadTime :=
             PrimFloat.add (stats_mainThreadTime entityStats)
               (PrimFloat.mul (task_selfTime task) cpuMultiplier);
           stats_transferSize := stats_transferSize entityStats |}
      in
      Normal (Map_set entities entity entityStats)
  end.

Definition getSummaryByEntity (networkRecords : list NetworkRequest)
  (mainThreadTasks : list TaskNode) (cpuMultiplier : float)
  : Completion EntityMap :=
  entities <- forOf addTransfer networkRecords [] ;;
  let jsURLs := getJavaScriptURLs networkRecords in
  entities <- forOf (addTask jsURLs cpuMultiplier) mainThreadTasks entities ;;
  Normal entities.

Definition computeSortValue (stats : Row) : float :=
  PrimFloat.add (PrimFloat.div (transferSize stats) 1024)
    (mainThreadTime stats).

Definition homepageOrEmpty (e : ThirdPartyEntity) : string :=
  match entity_homepage e with
  | Some h => if String.eqb h EmptyString then EmptyString else h
  | None => EmptyString
  end.

Definition toRow (entry : ThirdPartyEntity * EntityStats) : Row :=
  let '(e, stats) := entry in
  {| entity :=
       {| link_type := "link";
          link_text := entity_name e;
          link_url := homepageOrEmpty e |};
     transferSize := stats_transferSize stats;
     mainThreadTime := stats_mainThreadTime stats |}.

Fixpoint mapEntries (entries : EntityMap) (summary : Summary)
  : list Row * Summary :=
  match entries with
  | [] => ([], summary)
  | (e, stats) :: rest =>
      let summary :=
        {| wastedBytes :=
             PrimFloat.add (wastedBytes summary) (stats_transferSize stats);
           wastedMs :=
             PrimFloat.add (wastedMs summary) (stats_mainThreadTime stats) |}
      in
      let '(rows, summary) := mapEntries rest summary in
      (toRow (e, stats) :: rows, summary)
  end.

Definition headings : list Heading :=
  [ {| heading_key := "entity"; heading_itemType := "link";
       heading_granularity := None |};
    {| heading_key := "transferSize"; heading_itemType := "bytes";
       heading_granularity := Some 1%float |};
    {| heading_key := "mainThreadTime"; heading_itemType := "ms";
       heading_granularity := Some 1%float |} ].

Definition auditWith (networkRecords : list NetworkRequest)
  (tasks : list TaskNode) (multiplier : float) : Completion Product :=
  summaryByEntity <- getSummaryByEntity networkRecords tasks multiplier ;;
  let summary := {| wastedBytes := 0; wastedMs := 0 |} in
  let '(mapped, summary) := mapEntries summaryByEntity summary in
  let results :=
    Array_sort
      (fun a b => PrimFloat.sub (computeSortValue b) (computeSortValue a))
      mapped in
  Normal
    {| score := Number_of_bool (Nat.eqb (List.length results) 0);
       details := makeTableDetails headings results summary |}.

End Audit.

(** Sample helpers and tasks on the knowledge base of [Fixture]. *)
Definition sampleJavaScriptURLs (records : list NetworkRequest)
  : list string :=
  map request_url
    (filter (fun r => String.eqb (request_resourceType r) "Script") records).

Definition sampleAttributableURL (task : TaskNode) (jsURLs : list string)
  : string :=
  match
    find (fun u => existsb (String.eqb u) jsURLs) (task_attributableURLs task)
  with
  | Some u => u
  | None =>
      match task_attributableURLs task with
      | u :: _ => u
      | [] => "Other"
      end
  end.

Definition taskOf (url : string) (selfTime : float) : TaskNode :=
  {| task_selfTime := selfTime; task_attributableURLs := [url] |}.

(** Three tasks of 0.1 ms, 0.4 ms and 0.2 ms (the nearest doubles), each
    in the script of another entity. *)
#[warnings="-inexact-float"]
Definition threeTasks : list TaskNode :=
  [ taskOf "https://www.google-analytics.com/analytics.js" 0.1%float;
    taskOf "https://connect.facebook.net/sdk.js" 0.4%float;
    taskOf "https://cdn.anonymous.test/a.js" 0.2%float ].

End Binary64.

(** ** The audit *)

Module ThirdPartySummary.

Section Audit.

(** An entity of the knowledge base is an object; the aggregate compares
    entities by identity. *)
Variable ThirdPartyEntity : Type.
Variable entity_eq_dec :
  forall a b : ThirdPartyEntity, {a = b} + {a <> b}.
Variable entity_name : ThirdPartyEntity -> string.
Variable entity_homepage : ThirdPartyEntity -> option string.

(** [thirdPartyWeb.getEntity]: throws, or returns an entity or
    [undefined]. *)
Variable thirdPartyWeb_getEntity :
  string -> Completion (option ThirdPartyEntity).

(** [BootupTime.getJavaScriptURLs] and
    [BootupTime.getAttributableURLForTask] (bootup-time.js). *)
Variable getJavaScriptURLs : list NetworkRequest -> list string.
Variable getAttributableURLForTask : TaskNode -> list string -> string.

(** *** [Map<ThirdPartyEntity, EntityStats>] in insertion order *)

Definition EntityMap : Type := list (ThirdPartyEntity * EntityStats).

Fixpoint Map_get (entities : EntityMap) (key : ThirdPartyEntity)
  : option EntityStats :=
  match entities with
  | [] => None
  | (k, v) :: rest =>
      if entity_eq_dec key k then Some v else Map_get rest key
  end.

(** [set] overwrites the value of a present key where it stands and
    appends an absent key. *)
Fixpoint Map_set (entities : EntityMap) (key : ThirdPartyEntity)
  (value : EntityStats) : EntityMap :=
  match entities with
  | [] => [(key, value)]
  | (k, v) :: rest =>
      if entity_eq_dec key k then (k, value) :: rest
      else (k, v) :: Map_set rest key value
  end.

(** *** [getEntitySafe] *)

Definition getEntitySafe (url : string)
  : Completion (option ThirdPartyEntity) :=
  tryCatch (thirdPartyWeb_getEntity url) (fun _ => Normal None).

(** *** [getSummaryByEntity] *)

(** [entities.get(entity) || {mainThreadTime: 0, transferSize: 0}] *)
Definition getOrZero (entities : EntityMap) (key : ThirdPartyEntity)
  : EntityStats :=
  match Map_get entities key with
  | Some entityStats => entityStats
  | None => {| stats_mainThreadTime := 0; stats_transferSize := 0 |}
  end.

(** Body of the loop over the network records. *)
Definition addTransfer (entities : EntityMap) (request : NetworkRequest)
  : Completion EntityMap :=
  found <- getEntitySafe (request_url request) ;;
  match found with
  | None => Normal entities
  | Some entity =>
      let entityStats := getOrZero entities entity in
      let entityStats :=
        {| stats_mainThreadTime := stats_mainThreadTime entityStats;
           stats_transferSize :=
             stats_transferSize entityStats + request_transferSize request |}
      in
      Normal (Map_set entities entity entityStats)
  end.

(** Body of the loop over the main-thread tasks. *)
Definition addTask (jsURLs : list string) (cpuMultiplier : number)
  (entities : EntityMap) (task : TaskNode) : Completion EntityMap :=
  let attributeableURL := getAttributableURLForTask task jsURLs in
  found <- getEntitySafe attributeableURL ;;
  match found with
  | None => Normal entities
  | Some entity =>
      let entityStats := getOrZero entities entity in
      let entityStats :=
        {| stats_mainThreadTime :=
             stats_mainThreadTime entityStats
             + task_selfTime task * cpuMultiplier;
           stats_transferSize := stats_transferSize entityStats |}
      in
      Normal (Map_set entities entity entityStats)
  end.

Definition getSummaryByEntity (networkRecords : list NetworkRequest)
  (mainThreadTasks : list TaskNode) (cpuMultiplier : number)
  : Completion EntityMap :=
  entities <- forOf addTransfer networkRecords [] ;;
  let jsURLs := getJavaScriptURLs networkRecords in
  entities <- forOf (addTask jsURLs cpuMultiplier) mainThreadTasks entities ;;
  Normal entities.

(** *** [audit] *)

Definition computeSortValue (stats : Row) : number :=
  transferSize stats / 1024 + mainThreadTime stats.

(** [entity.homepage || ''] *)
Definition homepageOrEmpty (e : ThirdPartyEntity) : string :=
  match entity_homepage e with
  | Some h => if String.eqb h EmptyString then EmptyString else h
  | None => EmptyString
  end.

Definition toRow (entry : ThirdPartyEntity * EntityStats) : Row :=
  let '(e, stats) := entry in
  {| entity :=
       {| link_type := "link";
          link_text := entity_name e;
          link_url := homepageOrEmpty e |};
     transferSize := stats_transferSize stats;
     mainThreadTime := stats_mainThreadTime stats |}.

(** [Array.from(entries).map(callback)]: the callback adds the entry to
    the running [summary] and returns the entry's row. *)
Fixpoint mapEntries (entries : EntityMap) (summary : Summary)
  : list Row * Summary :=
  match entries with
  | [] => ([], summary)
  | (e, stats) :: rest =>
      let summary :=
        {| wastedBytes := wastedBytes summary + stats_transferSize stats;
           wastedMs := wastedMs summary + stats_mainThreadTime stats |} in
      let '(rows, summary) := mapEntries rest summary in
      (toRow (e, stats) :: rows, summary)
  end.

Definition headings : list Heading :=
  [ {| heading_key := "entity"; heading_itemType := "link";
       heading_granularity := None |};
    {| heading_key := "transferSize"; heading_itemType := "bytes";
       heading_granularity := Some 1 |};
    {| heading_key := "mainThreadTime"; heading_itemType := "ms";
       heading_granularity := Some 1 |} ].

(** [settings.throttlingMethod === 'simulate' ?
       settings.throttling.cpuSlowdownMultiplier : 1], with
    [settings = context.settings || {}]. *)
Definition multiplierOf (context : Context) : number :=
  match context_settings context with
  | Some settings =>
      if String.eqb (throttlingMethod settings) "simulate"
      then cpuSlowdownMultiplier (throttling settings)
      else 1
  | None => 1
  end.

(** The audit from the aggregation on, for given records, tasks and
    multiplier. *)
Definition auditWith (networkRecords : list NetworkRequest)
  (tasks : list TaskNode) (multiplier : number) : Completion Product :=
  summaryByEntity <- getSummaryByEntity networkRecords tasks multiplier ;;
  let summary := {| wastedBytes := 0; wastedMs := 0 |} in
  let '(mapped, summary) := mapEntries summaryByEntity summary in
  let results :=
    Array_sort (fun a b => computeSortValue b - computeSortValue a) mapped in
  Normal
    {| score := Number_of_bool (Nat.eqb (List.length results) 0);
       details := makeTableDetails headings results summary |}.

Definition audit (artifacts : Artifacts) (context : Context)
  : Completion Product :=
  let networkRecords := artifacts_networkRecords artifacts in
  let tasks := artifacts_mainThreadTasks artifacts in
  let multiplier := multiplierOf context in
  auditWith networkRecords tasks multiplier.

(** *** Values of the completions

    The lookup is made safe by [getEntitySafe], so every step of the
    aggregation returns normally; the definitions below name the values
    returned, and the lemmas after them prove that the code returns
    exactly these. *)

Definition resolve (url : string) : option ThirdPartyEntity :=
  match thirdPartyWeb_getEntity url with
  | Normal found => found
  | Thrown _ => None
  end.

Definition creditTransfer (entities : EntityMap) (request : NetworkRequest)
  : EntityMap :=
  match resolve (request_url request) with
  | None => entities
  | Some e =>
      Map_set entities e
        {| stats_mainThreadTime := stats_mainThreadTime (getOrZero entities e);
           stats_transferSize :=
             stats_transferSize (getOrZero entities e)
             + request_transferSize request |}
  end.

Definition creditTask (jsURLs : list string) (cpuMultiplier : number)
  (entities : EntityMap) (task : TaskNode) : EntityMap :=
  match resolve (getAttributableURLForTask task jsURLs) with
  | None => entities
  | Some e =>
      Map_set entities e
        {| stats_mainThreadTime :=
             stats_mainThreadTime (getOrZero entities e)
             + task_selfTime task * cpuMultiplier;
           stats_transferSize := stats_transferSize (getOrZero entities e) |}
  end.

Definition transferPass (networkRecords : list NetworkRequest) : EntityMap :=
  fold_left creditTransfer networkRecords [].

Definition aggregate (networkRecords : list NetworkRequest)
  (mainThreadTasks : list TaskNode) (cpuMultiplier : number) : EntityMap :=
  fold_left (creditTask (getJavaScriptURLs networkRecords) cpuMultiplier)
    mainThreadTasks (transferPass networkRecords).

(** The rows of the table and the totals, from the aggregate. *)
Definition rowsOf (entities : EntityMap) : list Row :=
  Array_sort (fun a b => computeSortValue b - computeSortValue a)
    (map toRow entities).

Definition totalsOf (entities : EntityMap) : Summary :=
  snd (mapEntries entities {| wastedBytes := 0; wastedMs := 0 |}).

(** Whether a task is charged to entity [e]. *)
Definition chargedTo (jsURLs : list string) (e : ThirdPartyEntity)
  (task : TaskNode) : bool :=
  match resolve (getAttributableURLForTask task jsURLs) with
  | Some e' => if entity_eq_dec e' e then true else false
  | None => false
  end.

(** The link shown for an entity. *)
Definition linkOf (e : ThirdPartyEntity) : LinkValue :=
  {| link_type := "link";
     link_text := entity_name e;
     link_url :=
       match entity_homepage e with Some h => h | None => EmptyString end |}.

(** The aggregate seen without the times: each entity with its bytes. *)
Definition bytesView (m : EntityMap) : list (ThirdPartyEntity * number) :=
  map (fun kv => (fst kv, stats_transferSize (snd kv))) m.

(** *** Further views, for the properties of the two passes *)

(** Whether a network record resolves to entity [e], and to any entity. *)
Definition resolvesTo (e : ThirdPartyEntity) (request : NetworkRequest)
  : bool :=
  match resolve (request_url request) with
  | Some e' => if entity_eq_dec e' e then true else false
  | None => false
  end.

Definition resolvable (request : NetworkRequest) : bool :=
  match resolve (request_url request) with
  | Some _ => true
  | None => false
  end.

(** Whether a task is charged to any entity. *)
Definition chargeable (jsURLs : list string) (task : TaskNode) : bool :=
  match resolve (getAttributableURLForTask task jsURLs) with
  | Some _ => true
  | None => false
  end.

(** What each record and then each task resolves to, in the order the
    two loops meet them. *)
Definition contributions (networkRecords : list NetworkRequest)
  (mainThreadTasks : list TaskNode) : list (option ThirdPartyEntity) :=
  map (fun request => resolve (request_url request)) networkRecords
  ++ map (fun task =>
            resolve
              (getAttributableURLForTask task
                 (getJavaScriptURLs networkRecords)))
         mainThreadTasks.

(** The entities of a list of lookups, each once, in the order of their
    first occurrence. *)
Definition addOnce (seen : list ThirdPartyEntity)
  (found : option ThirdPartyEntity) : list ThirdPartyEntity :=
  match found with
  | None => seen
  | Some e => if in_dec entity_eq_dec e seen then seen else seen ++ [e]
  end.

Definition firstOccurrences (found : list (option ThirdPartyEntity))
  : list ThirdPartyEntity :=
  fold_left addOnce found [].

(** Bytes and time held by a map, over all its entries. *)
Definition bytesTotal (m : EntityMap) : number :=
  sumOf (map (fun kv => stats_transferSize (snd kv)) m).

Definition timeTotal (m : EntityMap) : number :=
  sumOf (map (fun kv => stats_mainThreadTime (snd kv)) m).


(** The time charged to entity [e] as the loop over the tasks adds it:
    from 0, in the order of the tasks, one product
    [selfTime * cpuMultiplier] at a time. *)
Definition chargedTime (jsURLs : list string) (cpuMultiplier : number)
  (e : ThirdPartyEntity) (tasks : list TaskNode) : number :=
  fold_left (fun time task => time + task_selfTime task * cpuMultiplier)
    (filter (chargedTo jsURLs e) tasks) 0.

(** Stats with no negative part. *)
Definition nonNegative (stats : EntityStats) : Prop :=
  0 <= stats_mainThreadTime stats /\ 0 <= stats_transferSize stats.

(** ** Lemmas *)

(** *** The map *)

Lemma Map_get_set_same (m : EntityMap) k v :
  Map_get (Map_set m k v) k = Some v.
Proof.
  induction m as [|[k' v'] m IH]; simpl.
  - destruct (entity_eq_dec k k); congruence.
  - destruct (entity_eq_dec k k') as [->|Hne]; simpl.
    + destruct (entity_eq_dec k' k'); congruence.
    + destruct (entity_eq_dec k k'); [contradiction|exact IH].
Qed.

Lemma Map_get_set_other (m : EntityMap) k v k' :
  k' <> k -> Map_get (Map_set m k v) k' = Map_get m k'.
Proof.
  intros Hne. induction m as [|[k0 v0] m IH]; simpl.
  - destruct (entity_eq_dec k' k); [contradiction|reflexivity].
  - destruct (entity_eq_dec k k0) as [->|Hk]; simpl.
    + destruct (entity_eq_dec k' k0); [contradiction|reflexivity].
    + destruct (entity_eq_dec k' k0); [reflexivity|exact IH].
Qed.

Lemma Map_get_None_keys (m : EntityMap) k :
  Map_get m k = None <-> ~ In k (map fst m).
Proof.
  induction m as [|[k0 v0] m IH]; simpl.
  - tauto.
  - destruct (entity_eq_dec k k0) as [->|Hk].
    + split; [discriminate|intros H; exfalso; apply H; now left].
    + rewrite IH. split.
      * intros H [E|HIn]; [congruence|contradiction].
      * intros H HIn. apply H. now right.
Qed.

Lemma Map_get_In (m : EntityMap) k v :
  Map_get m k = Some v -> In (k, v) m.
Proof.
  induction m as [|[k0 v0] m IH]; simpl; [discriminate|].
  destruct (entity_eq_dec k k0) as [->|Hk].
  - intros [= ->]. now left.
  - intros H. right. auto.
Qed.

Lemma In_Map_get (m : EntityMap) k v :
  NoDup (map fst m) -> In (k, v) m -> Map_get m k = Some v.
Proof.
  induction m as [|[k0 v0] m IH]; simpl; [tauto|].
  intros Hnd [E|HIn].
  - injection E as -> ->. destruct (entity_eq_dec k k); congruence.
  - inversion Hnd as [|? ? Hnotin Hnd']; subst.
    destruct (entity_eq_dec k k0) as [->|Hk].
    + exfalso. apply Hnotin. apply (in_map fst) in HIn. exact HIn.
    + auto.
Qed.

Lemma Map_set_keys (m : EntityMap) k v :
  map fst (Map_set m k v) =
  match Map_get m k with
  | Some _ => map fst m
  | None => map fst m ++ [k]
  end.
Proof.
  induction m as [|[k0 v0] m IH]; simpl; [reflexivity|].
  destruct (entity_eq_dec k k0) as [->|Hk]; simpl; [reflexivity|].
  rewrite IH. destruct (Map_get m k); reflexivity.
Qed.

Lemma Map_set_NoDup (m : EntityMap) k v :
  NoDup (map fst m) -> NoDup (map fst (Map_set m k v)).
Proof.
  intros Hnd. rewrite Map_set_keys.
  destruct (Map_get m k) eqn:E; [exact Hnd|].
  apply Map_get_None_keys in E.
  apply NoDup_app; [exact Hnd|repeat constructor; simpl; tauto|].
  intros x Hx [<-|[]]. contradiction.
Qed.

(** *** The code returns the values named above *)

Lemma getEntitySafe_normal url :
  getEntitySafe url = Normal (resolve url).
Proof.
  unfold getEntitySafe, resolve, tryCatch.
  destruct (thirdPartyWeb_getEntity url); reflexivity.
Qed.

Lemma addTransfer_normal entities request :
  addTransfer entities request = Normal (creditTransfer entities request).
Proof.
  unfold addTransfer, creditTransfer. rewrite getEntitySafe_normal. simpl.
  destruct (resolve (request_url request)); reflexivity.
Qed.

Lemma addTask_normal jsURLs cpuMultiplier entities task :
  addTask jsURLs cpuMultiplier entities task =
  Normal (creditTask jsURLs cpuMultiplier entities task).
Proof.
  unfold addTask, creditTask. rewrite getEntitySafe_normal. simpl.
  destruct (resolve (getAttributableURLForTask task jsURLs)); reflexivity.
Qed.

Lemma forOf_normal {A S : Type} (body : S -> A -> Completion S)
  (step : S -> A -> S) :
  (forall s a, body s a = Normal (step s a)) ->
  forall items s, forOf body items s = Normal (fold_left step items s).
Proof.
  intros Hbody items. induction items as [|a items IH]; intros s; simpl.
  - reflexivity.
  - rewrite Hbody. simpl. apply IH.
Qed.

Lemma getSummaryByEntity_normal networkRecords mainThreadTasks cpuMultiplier :
  getSummaryByEntity networkRecords mainThreadTasks cpuMultiplier =
  Normal (aggregate networkRecords mainThreadTasks cpuMultiplier).
Proof.
  unfold getSummaryByEntity, aggregate, transferPass.
  rewrite (forOf_normal addTransfer creditTransfer addTransfer_normal).
  simpl.
  rewrite (forOf_normal _ _ (addTask_normal _ cpuMultiplier)).
  reflexivity.
Qed.

Lemma mapEntries_rows entries s :
  fst (mapEntries entries s) = map toRow entries.
Proof.
  revert s. induction entries as [|[e stats] entries IH]; intros s; simpl.
  - reflexivity.
  - specialize (IH {| wastedBytes := wastedBytes s + stats_transferSize stats;
                      wastedMs := wastedMs s + stats_mainThreadTime stats |}).
    destruct (mapEntries entries _) as [rows s']. simpl in *. now rewrite IH.
Qed.

Lemma auditWith_normal networkRecords tasks multiplier :
  auditWith networkRecords tasks multiplier =
  Normal
    {| score :=
         Number_of_bool
           (Nat.eqb
              (List.length (rowsOf (aggregate networkRecords tasks multiplier)))
              0);
       details :=
         makeTableDetails headings
           (rowsOf (aggregate networkRecords tasks multiplier))
           (totalsOf (aggregate networkRecords tasks multiplier)) |}.
Proof.
  unfold auditWith. rewrite getSummaryByEntity_normal. simpl.
  unfold rowsOf, totalsOf.
  rewrite <- mapEntries_rows
    with (s := {| wastedBytes := 0; wastedMs := 0 |}).
  destruct (mapEntries _ _) as [rows s']. reflexivity.
Qed.

(** *** Sorting by a descending key *)

Section SortByKey.

Context {A : Type} (key : A -> Q).

Let byKey : A -> A -> Q := fun a b => key b - key a.

Lemma insertSorted_perm (a : A) (l : list A) :
  Permutation (insertSorted byKey a l) (a :: l).
Proof.
  induction l as [|b l IH]; simpl.
  - apply Permutation_refl.
  - destruct (byKey a b ?= 0).
    + apply Permutation_refl.
    + apply Permutation_refl.
    + apply perm_trans with (b :: a :: l).
      * now apply perm_skip.
      * apply perm_swap.
Qed.

Lemma Array_sort_perm (l : list A) :
  Permutation (Array_sort byKey l) l.
Proof.
  induction l as [|a l IH]; simpl.
  - apply perm_nil.
  - apply perm_trans with (a :: Array_sort byKey l).
    + apply insertSorted_perm.
    + now apply perm_skip.
Qed.




End SortByKey.


(** *** Entries after one more contribution *)

Lemma getOrZero_set_same (m : EntityMap) k v :
  getOrZero (Map_set m k v) k = v.
Proof. unfold getOrZero. now rewrite Map_get_set_same. Qed.

Lemma getOrZero_set_other (m : EntityMap) k v k' :
  k' <> k -> getOrZero (Map_set m k v) k' = getOrZero m k'.
Proof. intros H. unfold getOrZero. now rewrite Map_get_set_other. Qed.

Lemma Map_set_present (m : EntityMap) k v k' :
  Map_get m k' <> None -> Map_get (Map_set m k v) k' <> None.
Proof.
  intros H. destruct (entity_eq_dec k' k) as [->|Hne].
  - rewrite Map_get_set_same. discriminate.
  - now rewrite Map_get_set_other.
Qed.

Lemma creditTransfer_NoDup m request :
  NoDup (map fst m) -> NoDup (map fst (creditTransfer m request)).
Proof.
  unfold creditTransfer. destruct (resolve _); [apply Map_set_NoDup|auto].
Qed.

Lemma creditTask_NoDup jsURLs c m task :
  NoDup (map fst m) -> NoDup (map fst (creditTask jsURLs c m task)).
Proof.
  unfold creditTask. destruct (resolve _); [apply Map_set_NoDup|auto].
Qed.

Lemma creditTransfer_other m request e :
  resolve (request_url request) <> Some e ->
  Map_get (creditTransfer m request) e = Map_get m e.
Proof.
  unfold creditTransfer. intros H.
  destruct (resolve (request_url request)) as [e'|]; [|reflexivity].
  apply Map_get_set_other. congruence.
Qed.

Lemma creditTransfer_mainThreadTime m request e :
  stats_mainThreadTime (getOrZero (creditTransfer m request) e) =
  stats_mainThreadTime (getOrZero m e).
Proof.
  unfold creditTransfer.
  destruct (resolve (request_url request)) as [e'|]; [|reflexivity].
  destruct (entity_eq_dec e e') as [->|Hne].
  - now rewrite getOrZero_set_same.
  - now rewrite getOrZero_set_other.
Qed.

Lemma creditTask_present jsURLs c m task e :
  Map_get m e <> None \/
  resolve (getAttributableURLForTask task jsURLs) = Some e ->
  Map_get (creditTask jsURLs c m task) e <> None.
Proof.
  unfold creditTask. intros [H|H].
  - destruct (resolve _); [now apply Map_set_present|exact H].
  - rewrite H, Map_get_set_same. discriminate.
Qed.

Lemma creditTask_getOrZero jsURLs c m task e :
  getOrZero (creditTask jsURLs c m task) e =
  if chargedTo jsURLs e task then
    {| stats_mainThreadTime :=
         stats_mainThreadTime (getOrZero m e) + task_selfTime task * c;
       stats_transferSize := stats_transferSize (getOrZero m e) |}
  else getOrZero m e.
Proof.
  unfold creditTask, chargedTo.
  destruct (resolve (getAttributableURLForTask task jsURLs)) as [e'|];
    [|reflexivity].
  destruct (entity_eq_dec e' e) as [->|Hne].
  - now rewrite getOrZero_set_same.
  - rewrite getOrZero_set_other; congruence.
Qed.

(** *** The two passes *)

Lemma transferPass_from_NoDup records m :
  NoDup (map fst m) -> NoDup (map fst (fold_left creditTransfer records m)).
Proof.
  revert m. induction records as [|r records IH]; intros m H; simpl.
  - exact H.
  - apply IH. now apply creditTransfer_NoDup.
Qed.

Lemma transferPass_from_other records m e :
  (forall r, In r records -> resolve (request_url r) <> Some e) ->
  Map_get (fold_left creditTransfer records m) e = Map_get m e.
Proof.
  revert m. induction records as [|r records IH]; intros m H; simpl.
  - reflexivity.
  - rewrite IH.
    + apply creditTransfer_other. apply H. now left.
    + intros r' Hr'. apply H. now right.
Qed.

Lemma transferPass_from_mainThreadTime records m e :
  stats_mainThreadTime (getOrZero (fold_left creditTransfer records m) e) =
  stats_mainThreadTime (getOrZero m e).
Proof.
  revert m. induction records as [|r records IH]; intros m; simpl.
  - reflexivity.
  - rewrite IH. apply creditTransfer_mainThreadTime.
Qed.

Lemma taskPass_NoDup jsURLs c tasks m :
  NoDup (map fst m) ->
  NoDup (map fst (fold_left (creditTask jsURLs c) tasks m)).
Proof.
  revert m. induction tasks as [|t tasks IH]; intros m H; simpl.
  - exact H.
  - apply IH. now apply creditTask_NoDup.
Qed.

Lemma taskPass_present jsURLs c tasks m e :
  Map_get m e <> None \/
  (exists t, In t tasks /\
             resolve (getAttributableURLForTask t jsURLs) = Some e) ->
  Map_get (fold_left (creditTask jsURLs c) tasks m) e <> None.
Proof.
  revert m. induction tasks as [|t tasks IH]; intros m H; simpl.
  - destruct H as [H|[t [[] _]]]. exact H.
  - apply IH. destruct H as [H|[t' [[<-|Hin] Hres]]].
    + left. apply creditTask_present. now left.
    + left. apply creditTask_present. now right.
    + right. now exists t'.
Qed.

Lemma taskPass_transferSize jsURLs c tasks m e :
  stats_transferSize (getOrZero (fold_left (creditTask jsURLs c) tasks m) e) =
  stats_transferSize (getOrZero m e).
Proof.
  revert m. induction tasks as [|t tasks IH]; intros m; simpl.
  - reflexivity.
  - rewrite IH, creditTask_getOrZero.
    destruct (chargedTo jsURLs e t); reflexivity.
Qed.

Lemma taskPass_mainThreadTime jsURLs c tasks m e :
  stats_mainThreadTime
    (getOrZero (fold_left (creditTask jsURLs c) tasks m) e) =
  fold_left (fun time task => time + task_selfTime task * c)
    (filter (chargedTo jsURLs e) tasks)
    (stats_mainThreadTime (getOrZero m e)).
Proof.
  revert m. induction tasks as [|t tasks IH]; intros m; simpl.
  - reflexivity.
  - rewrite IH, creditTask_getOrZero.
    destruct (chargedTo jsURLs e t); reflexivity.
Qed.

(** *** Rows and totals *)

Lemma homepageOrEmpty_spec e :
  homepageOrEmpty e =
  match entity_homepage e with Some h => h | None => EmptyString end.
Proof.
  unfold homepageOrEmpty. destruct (entity_homepage e) as [h|]; [|reflexivity].
  destruct (String.eqb_spec h EmptyString); congruence.
Qed.

Lemma toRow_spec e stats :
  toRow (e, stats) =
  {| entity := linkOf e;
     transferSize := stats_transferSize stats;
     mainThreadTime := stats_mainThreadTime stats |}.
Proof. unfold toRow, linkOf. now rewrite homepageOrEmpty_spec. Qed.

Lemma mapEntries_totals entries s :
  wastedBytes (snd (mapEntries entries s)) ==
    wastedBytes s + sumOf (map transferSize (map toRow entries)) /\
  wastedMs (snd (mapEntries entries s)) ==
    wastedMs s + sumOf (map mainThreadTime (map toRow entries)).
Proof.
  revert s. induction entries as [|[e stats] entries IH]; intros s.
  - unfold sumOf. simpl. split; ring.
  - simpl.
    specialize (IH {| wastedBytes := wastedBytes s + stats_transferSize stats;
                      wastedMs := wastedMs s + stats_mainThreadTime stats |}).
    destruct (mapEntries entries _) as [rows s']. simpl in *.
    destruct IH as [IHb IHm]. rewrite IHb, IHm.
    unfold sumOf. simpl. split; ring.
Qed.

Lemma rowsOf_perm entities :
  Permutation (rowsOf entities) (map toRow entities).
Proof. unfold rowsOf. apply (Array_sort_perm computeSortValue). Qed.


(** *** What the aggregate holds, seen without the times *)

Lemma bytesView_Map_get m m' k :
  bytesView m = bytesView m' ->
  match Map_get m k, Map_get m' k with
  | Some v, Some v' => stats_transferSize v = stats_transferSize v'
  | None, None => True
  | _, _ => False
  end.
Proof.
  revert m'. induction m as [|[k0 v0] m IH]; intros [|[k1 v1] m'];
    simpl; try discriminate; [trivial|].
  intros [= <- Hv Hm]. destruct (entity_eq_dec k k0).
  - exact Hv.
  - apply IH. exact Hm.
Qed.

Lemma bytesView_getOrZero m m' k :
  bytesView m = bytesView m' ->
  stats_transferSize (getOrZero m k) = stats_transferSize (getOrZero m' k).
Proof.
  intros H. apply bytesView_Map_get with (k := k) in H. unfold getOrZero.
  destruct (Map_get m k), (Map_get m' k); simpl; tauto.
Qed.

Lemma bytesView_Map_set m m' k v v' :
  bytesView m = bytesView m' ->
  stats_transferSize v = stats_transferSize v' ->
  bytesView (Map_set m k v) = bytesView (Map_set m' k v').
Proof.
  intros Hm Hv. revert m' Hm.
  induction m as [|[k0 v0] m IH]; intros [|[k1 v1] m'];
    simpl; try discriminate.
  - intros _. now rewrite Hv.
  - intros [= <- Hv0 Hm]. destruct (entity_eq_dec k k0); simpl.
    + now rewrite Hv, Hm.
    + now rewrite Hv0, (IH m').
Qed.

Lemma bytesView_creditTask jsURLs c c' m m' task :
  bytesView m = bytesView m' ->
  bytesView (creditTask jsURLs c m task) =
  bytesView (creditTask jsURLs c' m' task).
Proof.
  intros H. unfold creditTask.
  destruct (resolve (getAttributableURLForTask task jsURLs)) as [e|];
    [|exact H].
  apply bytesView_Map_set; [exact H|]. simpl. now apply bytesView_getOrZero.
Qed.

Lemma bytesView_taskPass jsURLs c c' tasks m m' :
  bytesView m = bytesView m' ->
  bytesView (fold_left (creditTask jsURLs c) tasks m) =
  bytesView (fold_left (creditTask jsURLs c') tasks m').
Proof.
  revert m m'. induction tasks as [|t tasks IH]; intros m m' H; simpl.
  - exact H.
  - apply IH. now apply bytesView_creditTask.
Qed.

Lemma bytesView_rows m m' :
  bytesView m = bytesView m' ->
  map (fun row => (entity row, transferSize row)) (map toRow m) =
  map (fun row => (entity row, transferSize row)) (map toRow m').
Proof.
  revert m'. induction m as [|[k0 v0] m IH]; intros [|[k1 v1] m'];
    simpl; try discriminate; [reflexivity|].
  intros [= <- Hv Hm]. now rewrite Hv, (IH m').
Qed.

Lemma bytesView_wastedBytes m m' s s' :
  bytesView m = bytesView m' ->
  wastedBytes s = wastedBytes s' ->
  wastedBytes (snd (mapEntries m s)) = wastedBytes (snd (mapEntries m' s')).
Proof.
  revert m' s s'. induction m as [|[k0 v0] m IH]; intros [|[k1 v1] m'] s s';
    simpl; try discriminate; [trivial|].
  intros [= <- Hv Hm] Hs.
  specialize (IH m'
    {| wastedBytes := wastedBytes s + stats_transferSize v0;
       wastedMs := wastedMs s + stats_mainThreadTime v0 |}
    {| wastedBytes := wastedBytes s' + stats_transferSize v1;
       wastedMs := wastedMs s' + stats_mainThreadTime v1 |} Hm).
  destruct (mapEntries m _) as [rows1 s1].
  destruct (mapEntries m' _) as [rows2 s2]. simpl in *.
  apply IH. now rewrite Hv, Hs.
Qed.

(** *** Entries of the aggregate *)

Lemma getEntitySafe_resolve url found :
  getEntitySafe url = Normal found <-> resolve url = found.
Proof.
  rewrite getEntitySafe_normal. split; [now intros [= ->]|now intros ->].
Qed.

Lemma creditTask_other jsURLs c m task e :
  resolve (getAttributableURLForTask task jsURLs) <> Some e ->
  Map_get (creditTask jsURLs c m task) e = Map_get m e.
Proof.
  unfold creditTask. intros H.
  destruct (resolve (getAttributableURLForTask task jsURLs)) as [e'|];
    [|reflexivity].
  apply Map_get_set_other. congruence.
Qed.

Lemma taskPass_other jsURLs c tasks m e :
  (forall t, In t tasks ->
             resolve (getAttributableURLForTask t jsURLs) <> Some e) ->
  Map_get (fold_left (creditTask jsURLs c) tasks m) e = Map_get m e.
Proof.
  revert m. induction tasks as [|t tasks IH]; intros m H; simpl.
  - reflexivity.
  - rewrite IH.
    + apply creditTask_other. apply H. now left.
    + intros t' Ht'. apply H. now right.
Qed.

Lemma creditTransfer_present m request e :
  Map_get m e <> None \/ resolve (request_url request) = Some e ->
  Map_get (creditTransfer m request) e <> None.
Proof.
  unfold creditTransfer. intros [H|H].
  - destruct (resolve _); [now apply Map_set_present|exact H].
  - rewrite H, Map_get_set_same. discriminate.
Qed.

Lemma transferPass_from_present records m e :
  Map_get m e <> None \/
  (exists r, In r records /\ resolve (request_url r) = Some e) ->
  Map_get (fold_left creditTransfer records m) e <> None.
Proof.
  revert m. induction records as [|r records IH]; intros m H; simpl.
  - destruct H as [H|[r [[] _]]]. exact H.
  - apply IH. destruct H as [H|[r' [[<-|Hin] Hres]]].
    + left. apply creditTransfer_present. now left.
    + left. apply creditTransfer_present. now right.
    + right. now exists r'.
Qed.

Lemma transferPass_mainThreadTime records e :
  stats_mainThreadTime (getOrZero (transferPass records) e) = 0.
Proof. unfold transferPass. now rewrite transferPass_from_mainThreadTime. Qed.

Lemma getOrZero_of_get (m : EntityMap) e stats :
  Map_get m e = Some stats -> getOrZero m e = stats.
Proof. unfold getOrZero. now intros ->. Qed.

Lemma entry_has_row entities e stats :
  Map_get entities e = Some stats ->
  In {| entity := linkOf e;
        transferSize := stats_transferSize stats;
        mainThreadTime := stats_mainThreadTime stats |}
     (rowsOf entities).
Proof.
  intros H. rewrite <- toRow_spec.
  apply Permutation_in with (map toRow entities).
  - apply Permutation_sym, rowsOf_perm.
  - apply in_map. now apply Map_get_In.
Qed.

Lemma one_task_entry networkRecords task c e :
  resolve (getAttributableURLForTask task (getJavaScriptURLs networkRecords))
    = Some e ->
  Map_get (aggregate networkRecords [task] c) e =
  Some {| stats_mainThreadTime := 0 + task_selfTime task * c;
          stats_transferSize :=
            stats_transferSize (getOrZero (transferPass networkRecords) e) |}.
Proof.
  intros H. unfold aggregate. simpl. unfold creditTask.
  now rewrite H, Map_get_set_same, transferPass_mainThreadTime.
Qed.

(** *** The audit and its multiplier *)

Lemma audit_auditWith artifacts context :
  audit artifacts context =
  auditWith (artifacts_networkRecords artifacts)
    (artifacts_mainThreadTasks artifacts) (multiplierOf context).
Proof. reflexivity. Qed.

Lemma multiplierOf_simulate c :
  multiplierOf
    {| context_settings :=
         Some {| throttlingMethod := "simulate";
                 throttling := {| cpuSlowdownMultiplier := c |} |} |} = c.
Proof. reflexivity. Qed.

Lemma multiplierOf_no_settings :
  multiplierOf {| context_settings := None |} = 1.
Proof. reflexivity. Qed.

(** *** The keys, in insertion order *)

Lemma Map_set_addOnce (m : EntityMap) k v :
  map fst (Map_set m k v) = addOnce (map fst m) (Some k).
Proof.
  rewrite Map_set_keys. simpl.
  destruct (in_dec entity_eq_dec k (map fst m)) as [Hin|Hnot].
  - destruct (Map_get m k) eqn:E; [reflexivity|].
    apply Map_get_None_keys in E. contradiction.
  - apply Map_get_None_keys in Hnot. now rewrite Hnot.
Qed.

Lemma creditTransfer_keys m request :
  map fst (creditTransfer m request) =
  addOnce (map fst m) (resolve (request_url request)).
Proof.
  unfold creditTransfer.
  destruct (resolve (request_url request)); [apply Map_set_addOnce|].
  reflexivity.
Qed.

Lemma creditTask_keys jsURLs c m task :
  map fst (creditTask jsURLs c m task) =
  addOnce (map fst m) (resolve (getAttributableURLForTask task jsURLs)).
Proof.
  unfold creditTask.
  destruct (resolve (getAttributableURLForTask task jsURLs));
    [apply Map_set_addOnce|].
  reflexivity.
Qed.

Lemma transferPass_from_keys records m :
  map fst (fold_left creditTransfer records m) =
  fold_left addOnce
    (map (fun request => resolve (request_url request)) records)
    (map fst m).
Proof.
  revert m. induction records as [|r records IH]; intros m; simpl.
  - reflexivity.
  - now rewrite IH, creditTransfer_keys.
Qed.

Lemma taskPass_keys jsURLs c tasks m :
  map fst (fold_left (creditTask jsURLs c) tasks m) =
  fold_left addOnce
    (map (fun task => resolve (getAttributableURLForTask task jsURLs)) tasks)
    (map fst m).
Proof.
  revert m. induction tasks as [|t tasks IH]; intros m; simpl.
  - reflexivity.
  - now rewrite IH, creditTask_keys.
Qed.

(** *** Bytes of one entity *)

Lemma creditTransfer_getOrZero m request e :
  getOrZero (creditTransfer m request) e =
  if resolvesTo e request then
    {| stats_mainThreadTime := stats_mainThreadTime (getOrZero m e);
       stats_transferSize :=
         stats_transferSize (getOrZero m e) + request_transferSize request |}
  else getOrZero m e.
Proof.
  unfold creditTransfer, resolvesTo.
  destruct (resolve (request_url request)) as [e'|]; [|reflexivity].
  destruct (entity_eq_dec e' e) as [->|Hne].
  - now rewrite getOrZero_set_same.
  - rewrite getOrZero_set_other; congruence.
Qed.

Lemma transferPass_from_transferSize records m e :
  stats_transferSize (getOrZero (fold_left creditTransfer records m) e) ==
  stats_transferSize (getOrZero m e)
  + sumOf (map request_transferSize (filter (resolvesTo e) records)).
Proof.
  revert m. induction records as [|r records IH]; intros m; simpl.
  - unfold sumOf. simpl. ring.
  - rewrite IH, creditTransfer_getOrZero.
    destruct (resolvesTo e r); simpl.
    + unfold sumOf. simpl. ring.
    + reflexivity.
Qed.

(** *** Totals over the map *)

Lemma total_Map_set (f : EntityStats -> Q) (m : EntityMap) k v :
  f {| stats_mainThreadTime := 0; stats_transferSize := 0 |} == 0 ->
  sumOf (map (fun kv => f (snd kv)) (Map_set m k v)) ==
  sumOf (map (fun kv => f (snd kv)) m) - f (getOrZero m k) + f v.
Proof.
  intros Hzero. unfold getOrZero.
  induction m as [|[k0 v0] m IH]; simpl.
  - rewrite Hzero. unfold sumOf. simpl. ring.
  - destruct (entity_eq_dec k k0) as [->|Hne]; simpl.
    + unfold sumOf. simpl. ring.
    + unfold sumOf in *. simpl. rewrite IH. ring.
Qed.

Lemma creditTransfer_bytesTotal m request :
  bytesTotal (creditTransfer m request) ==
  bytesTotal m + (if resolvable request then request_transferSize request
                  else 0).
Proof.
  unfold creditTransfer, resolvable, bytesTotal.
  destruct (resolve (request_url request)) as [e|]; [|ring].
  rewrite (total_Map_set stats_transferSize); [simpl; ring|reflexivity].
Qed.

Lemma creditTask_bytesTotal jsURLs c m task :
  bytesTotal (creditTask jsURLs c m task) == bytesTotal m.
Proof.
  unfold creditTask, bytesTotal.
  destruct (resolve (getAttributableURLForTask task jsURLs)) as [e|];
    [|reflexivity].
  rewrite (total_Map_set stats_transferSize); [simpl; ring|reflexivity].
Qed.

Lemma transferPass_from_totals records m :
  bytesTotal (fold_left creditTransfer records m) ==
    bytesTotal m
    + sumOf (map request_transferSize (filter resolvable records)).
Proof.
  revert m. induction records as [|r records IH]; intros m; simpl.
  - unfold sumOf. simpl. ring.
  - rewrite IH, creditTransfer_bytesTotal.
    destruct (resolvable r); unfold sumOf; simpl; ring.
Qed.

Lemma taskPass_totals jsURLs c tasks m :
  bytesTotal (fold_left (creditTask jsURLs c) tasks m) == bytesTotal m.
Proof.
  revert m. induction tasks as [|t tasks IH]; intros m; simpl.
  - reflexivity.
  - now rewrite IH, creditTask_bytesTotal.
Qed.

Lemma totalsOf_totals entities :
  wastedBytes (totalsOf entities) == bytesTotal entities /\
  wastedMs (totalsOf entities) == timeTotal entities.
Proof.
  unfold totalsOf, bytesTotal, timeTotal.
  destruct (mapEntries_totals entities {| wastedBytes := 0; wastedMs := 0 |})
    as [Hb Hm].
  rewrite Hb, Hm, !map_map. simpl.
  assert (E1 : map (fun x => transferSize (toRow x)) entities =
               map (fun kv => stats_transferSize (snd kv)) entities).
  { apply map_ext. now intros [e stats]. }
  assert (E2 : map (fun x => mainThreadTime (toRow x)) entities =
               map (fun kv => stats_mainThreadTime (snd kv)) entities).
  { apply map_ext. now intros [e stats]. }
  rewrite E1, E2. split; ring.
Qed.

Lemma aggregate_totals networkRecords tasks c :
  bytesTotal (aggregate networkRecords tasks c) ==
    sumOf (map request_transferSize (filter resolvable networkRecords)).
Proof.
  unfold aggregate, transferPass.
  rewrite taskPass_totals, transferPass_from_totals.
  unfold bytesTotal, sumOf. simpl. ring.
Qed.

(** *** The summary's time, as it is added *)

Lemma aggregate_keys networkRecords tasks c :
  map fst (aggregate networkRecords tasks c) =
  firstOccurrences (contributions networkRecords tasks).
Proof.
  unfold aggregate, transferPass, firstOccurrences, contributions.
  now rewrite taskPass_keys, transferPass_from_keys, fold_left_app.
Qed.

Lemma aggregate_NoDup networkRecords tasks c :
  NoDup (map fst (aggregate networkRecords tasks c)).
Proof. apply taskPass_NoDup, transferPass_from_NoDup. constructor. Qed.

Lemma aggregate_chargedTime networkRecords tasks c e stats :
  Map_get (aggregate networkRecords tasks c) e = Some stats ->
  stats_mainThreadTime stats =
  chargedTime (getJavaScriptURLs networkRecords) c e tasks.
Proof.
  intros Hget. rewrite <- (getOrZero_of_get _ _ _ Hget).
  unfold aggregate, chargedTime.
  now rewrite taskPass_mainThreadTime, transferPass_mainThreadTime.
Qed.

Lemma mapEntries_wastedMs entries s :
  wastedMs (snd (mapEntries entries s)) =
  fold_left (fun total kv => total + stats_mainThreadTime (snd kv)) entries
    (wastedMs s).
Proof.
  revert s. induction entries as [|[e stats] entries IH]; intros s; simpl.
  - reflexivity.
  - specialize (IH {| wastedBytes := wastedBytes s + stats_transferSize stats;
                      wastedMs := wastedMs s + stats_mainThreadTime stats |}).
    destruct (mapEntries entries _) as [rows s']. exact IH.
Qed.

Lemma fold_time_by_key (f : ThirdPartyEntity -> Q) (entries : EntityMap) a :
  (forall kv, In kv entries -> stats_mainThreadTime (snd kv) = f (fst kv)) ->
  fold_left (fun total kv => total + stats_mainThreadTime (snd kv)) entries a =
  fold_left (fun total e => total + f e) (map fst entries) a.
Proof.
  revert a. induction entries as [|kv entries IH]; intros a H; simpl.
  - reflexivity.
  - rewrite (H kv) by now left. apply IH. intros kv' Hin. apply H. now right.
Qed.

(** *** Which entities have an entry *)

Lemma aggregate_None networkRecords tasks c e :
  Map_get (aggregate networkRecords tasks c) e = None <->
  (forall r, In r networkRecords -> resolve (request_url r) <> Some e) /\
  (forall t, In t tasks ->
             resolve
               (getAttributableURLForTask t (getJavaScriptURLs networkRecords))
             <> Some e).
Proof.
  unfold aggregate, transferPass. split.
  - intros Hnone. split.
    + intros r Hr Hres. revert Hnone. apply taskPass_present. left.
      apply transferPass_from_present. right. now exists r.
    + intros t Ht Hres. revert Hnone. apply taskPass_present. right.
      now exists t.
  - intros [Hrecords Htasks].
    rewrite taskPass_other by exact Htasks.
    now rewrite transferPass_from_other by exact Hrecords.
Qed.


(** *** Values that are not negative *)

Lemma Map_set_Forall (P : EntityStats -> Prop) (m : EntityMap) k v :
  Forall (fun kv => P (snd kv)) m -> P v ->
  Forall (fun kv => P (snd kv)) (Map_set m k v).
Proof.
  intros Hm Hv. induction m as [|[k0 v0] m IH]; simpl.
  - now repeat constructor.
  - inversion Hm as [|? ? H0 Hm']; subst.
    destruct (entity_eq_dec k k0); constructor; auto.
Qed.

Lemma getOrZero_Forall (P : EntityStats -> Prop) (m : EntityMap) k :
  Forall (fun kv => P (snd kv)) m ->
  P {| stats_mainThreadTime := 0; stats_transferSize := 0 |} ->
  P (getOrZero m k).
Proof.
  intros Hm Hzero. unfold getOrZero.
  destruct (Map_get m k) as [v|] eqn:E; [|exact Hzero].
  apply Map_get_In in E. rewrite Forall_forall in Hm. exact (Hm _ E).
Qed.

(** *** Sorted rows, any two of them *)



Lemma sumOf_nonneg (l : list Q) :
  Forall (fun x => 0 <= x) l -> 0 <= sumOf l.
Proof.
  unfold sumOf. induction 1 as [|x l Hx _ IH]; simpl.
  - apply Qle_refl.
  - lra.
Qed.

Lemma creditTransfer_nonNegative m request :
  0 <= request_transferSize request ->
  Forall (fun kv => nonNegative (snd kv)) m ->
  Forall (fun kv => nonNegative (snd kv)) (creditTransfer m request).
Proof.
  intros Hsize Hm. unfold creditTransfer.
  destruct (resolve (request_url request)) as [e|]; [|exact Hm].
  apply Map_set_Forall; [exact Hm|].
  assert (H : nonNegative (getOrZero m e)).
  { apply getOrZero_Forall; [exact Hm|]. split; apply Qle_refl. }
  destruct H as [Ht Hb]. split; simpl; [exact Ht|lra].
Qed.

Lemma creditTask_nonNegative jsURLs c m task :
  0 <= task_selfTime task -> 0 <= c ->
  Forall (fun kv => nonNegative (snd kv)) m ->
  Forall (fun kv => nonNegative (snd kv)) (creditTask jsURLs c m task).
Proof.
  intros Htime Hc Hm. unfold creditTask.
  destruct (resolve (getAttributableURLForTask task jsURLs)) as [e|];
    [|exact Hm].
  apply Map_set_Forall; [exact Hm|].
  assert (H : nonNegative (getOrZero m e)).
  { apply getOrZero_Forall; [exact Hm|]. split; apply Qle_refl. }
  destruct H as [Ht Hb]. split; simpl; [|exact Hb].
  pose proof (Qmult_le_0_compat _ _ Htime Hc). lra.
Qed.

Lemma aggregate_nonNegative networkRecords tasks c :
  (forall r, In r networkRecords -> 0 <= request_transferSize r) ->
  (forall t, In t tasks -> 0 <= task_selfTime t) ->
  0 <= c ->
  Forall (fun kv => nonNegative (snd kv)) (aggregate networkRecords tasks c).
Proof.
  intros Hrecords Htasks Hc. unfold aggregate, transferPass.
  assert (H1 : forall m,
    Forall (fun kv => nonNegative (snd kv)) m ->
    Forall (fun kv => nonNegative (snd kv))
      (fold_left creditTransfer networkRecords m)).
  { induction networkRecords as [|r records IH]; intros m Hm; simpl.
    - exact Hm.
    - apply IH.
      + intros r' Hr'. apply Hrecords. now right.
      + apply creditTransfer_nonNegative; [|exact Hm].
        apply Hrecords. now left. }
  generalize (getJavaScriptURLs networkRecords) as jsURLs.
  generalize (H1 [] (Forall_nil _)).
  generalize (fold_left creditTransfer networkRecords []) as m.
  clear H1 Hrecords. intros m Hm jsURLs. revert m Hm.
  induction tasks as [|t tasks IH]; intros m Hm; simpl.
  - exact Hm.
  - apply IH.
    + intros t' Ht'. apply Htasks. now right.
    + apply creditTask_nonNegative; [|exact Hc|exact Hm].
      apply Htasks. now left.
Qed.

Lemma creditTask_unresolved jsURLs c m task :
  resolve (getAttributableURLForTask task jsURLs) = None ->
  creditTask jsURLs c m task = m.
Proof. unfold creditTask. now intros ->. Qed.

(** *** Bytes of the rows, in any order *)

Lemma sumOf_perm (l l' : list Q) :
  Permutation l l' -> sumOf l == sumOf l'.
Proof.
  unfold sumOf. induction 1 as [|x l l' _ IH|x y l|l l' l'' _ IH1 _ IH2];
    simpl.
  - reflexivity.
  - now rewrite IH.
  - ring.
  - now rewrite IH1.
Qed.

Lemma rows_bytes_total entities :
  sumOf (map transferSize (rowsOf entities)) ==
  wastedBytes (totalsOf entities).
Proof.
  rewrite (sumOf_perm _ _ (Permutation_map transferSize (rowsOf_perm _))).
  destruct (mapEntries_totals entities {| wastedBytes := 0; wastedMs := 0 |})
    as [Hb _].
  unfold totalsOf. rewrite Hb. simpl. ring.
Qed.


(** ** Properties of the audit *)


(** C8: for every input the score of the audit is 1 exactly when there is
    no row, and 0 as soon as there is one, whatever the rows hold. *)
Theorem audit_score_iff_no_rows networkRecords tasks cpuMultiplier :
  exists product,
    auditWith networkRecords tasks cpuMultiplier = Normal product /\
    (score product == 1 <-> items (details product) = []) /\
    (items (details product) = [] -> score product = 1) /\
    (items (details product) <> [] -> score product = 0).
Proof.
  rewrite auditWith_normal. eexists. split; [reflexivity|]. simpl.
  destruct (rowsOf (aggregate networkRecords tasks cpuMultiplier))
    as [|row rows]; simpl.
  - repeat split; try reflexivity; congruence.
  - repeat split; try reflexivity; try discriminate; try congruence.
Qed.

(** C9: with no network record and no task the audit returns, with no
    row, a summary of zero bytes and zero milliseconds, and score 1;
    this for every multiplier and every context. *)
Theorem audit_empty_input :
  (forall cpuMultiplier,
     auditWith [] [] cpuMultiplier =
     Normal
       {| score := 1;
          details :=
            {| details_type := "table";
               details_headings := headings;
               items := [];
               summary := {| wastedBytes := 0; wastedMs := 0 |} |} |}) /\
  (forall context,
     exists product,
       audit {| artifacts_networkRecords := [];
                artifacts_mainThreadTasks := [] |} context = Normal product /\
       items (details product) = [] /\
       wastedBytes (summary (details product)) = 0 /\
       wastedMs (summary (details product)) = 0 /\
       score product = 1).
Proof.
  split.
  - intros cpuMultiplier. reflexivity.
  - intros context. eexists. split; [reflexivity|]. simpl. tauto.
Qed.

(** C3: a transfer record whose URL resolves to no entity leaves the
    aggregate as it was, wherever it stands among the records, and creates
    no entry; on that record alone and no task the aggregate is empty, the
    audit has no row and [wastedBytes] is 0. *)
Theorem unresolved_transfer_contributes_nothing request :
  getEntitySafe (request_url request) = Normal None ->
  (forall entities, addTransfer entities request = Normal entities) /\
  (forall before after entities,
     forOf addTransfer (before ++ request :: after) entities =
     forOf addTransfer (before ++ after) entities) /\
  (forall cpuMultiplier,
     getSummaryByEntity [request] [] cpuMultiplier = Normal []) /\
  (forall cpuMultiplier,
     exists product,
       auditWith [request] [] cpuMultiplier = Normal product /\
       items (details product) = [] /\
       wastedBytes (summary (details product)) = 0).
Proof.
  intros Hnone.
  assert (Hstep : forall entities, addTransfer entities request = Normal entities).
  { intros entities. unfold addTransfer. now rewrite Hnone. }
  split; [exact Hstep|]. split; [|split].
  - intros before. induction before as [|r before IH]; intros after entities.
    + simpl. now rewrite Hstep.
    + simpl. destruct (addTransfer entities r) as [entities'|err]; simpl.
      * apply IH.
      * reflexivity.
  - intros cpuMultiplier. unfold getSummaryByEntity. simpl.
    now rewrite Hstep.
  - intros cpuMultiplier. unfold auditWith, getSummaryByEntity. simpl.
    rewrite Hstep. simpl. eexists. split; [reflexivity|]. simpl. tauto.
Qed.

(** C4: [getEntitySafe] returns for every string: what the lookup of the
    knowledge base returns when that returns, and [undefined] when that
    throws; so the aggregation and the audit return for every input. *)
Theorem getEntitySafe_never_throws :
  (forall url,
     getEntitySafe url =
     match thirdPartyWeb_getEntity url with
     | Normal found => Normal found
     | Thrown _ => Normal None
     end) /\
  (forall url, exists found, getEntitySafe url = Normal found) /\
  (forall networkRecords tasks cpuMultiplier,
     exists entities,
       getSummaryByEntity networkRecords tasks cpuMultiplier =
       Normal entities) /\
  (forall networkRecords tasks cpuMultiplier,
     exists product,
       auditWith networkRecords tasks cpuMultiplier = Normal product).
Proof.
  split; [|split; [|split]].
  - intros url. unfold getEntitySafe, tryCatch.
    destruct (thirdPartyWeb_getEntity url); reflexivity.
  - intros url. rewrite getEntitySafe_normal. now eexists.
  - intros networkRecords tasks cpuMultiplier.
    rewrite getSummaryByEntity_normal. now eexists.
  - intros networkRecords tasks cpuMultiplier.
    rewrite auditWith_normal. now eexists.
Qed.

(** C7: for every input the aggregate has each entity as a key once, and
    the rows are the rows of its entries, one row for one entry, in some
    order; so no entity has two rows. *)
Theorem audit_one_row_per_entity networkRecords tasks cpuMultiplier :
  exists entities product,
    getSummaryByEntity networkRecords tasks cpuMultiplier = Normal entities /\
    auditWith networkRecords tasks cpuMultiplier = Normal product /\
    NoDup (map fst entities) /\
    List.length (items (details product)) = List.length entities /\
    exists entries,
      Permutation entries entities /\
      NoDup (map fst entries) /\
      items (details product) = map toRow entries.
Proof.
  rewrite getSummaryByEntity_normal, auditWith_normal.
  do 2 eexists. split; [reflexivity|]. split; [reflexivity|]. simpl.
  set (agg := aggregate networkRecords tasks cpuMultiplier).
  assert (Hnd : NoDup (map fst agg)).
  { apply taskPass_NoDup, transferPass_from_NoDup. constructor. }
  pose proof (rowsOf_perm agg) as P.
  split; [exact Hnd|]. split.
  - rewrite (Permutation_length P). apply length_map.
  - destruct (Permutation_map_inv _ _ P) as [entries [Hrows Hperm]].
    exists entries. split; [now apply Permutation_sym|]. split; [|exact Hrows].
    apply Permutation_NoDup with (map fst agg); [|exact Hnd].
    now apply Permutation_map.
Qed.

(** C5: the multiplier scales the self time of every task charged to an
    entity and nothing else.  One task of self time 100 charged to [e]
    gives [e] a main-thread time of 400 under multiplier 4 and of 100 under
    multiplier 1, in the aggregate and in the row of [e]; for every input
    the time of an entity is what the loop adds for the tasks charged to
    it, from 0 and in their order, each self time times the one multiplier;
    and for every input two multipliers give the same
    entities with the same bytes, the same [wastedBytes], and rows with the
    same entity links and transfer sizes. *)
Theorem cpuMultiplier_scales_time_only :
  (forall networkRecords task e,
     task_selfTime task = 100 ->
     getEntitySafe
       (getAttributableURLForTask task (getJavaScriptURLs networkRecords))
       = Normal (Some e) ->
     (exists entities stats product,
        getSummaryByEntity networkRecords [task] 4 = Normal entities /\
        Map_get entities e = Some stats /\
        stats_mainThreadTime stats = 400 /\
        auditWith networkRecords [task] 4 = Normal product /\
        In {| entity := linkOf e;
              transferSize := stats_transferSize stats;
              mainThreadTime := 400 |} (items (details product))) /\
     (exists entities stats product,
        getSummaryByEntity networkRecords [task] 1 = Normal entities /\
        Map_get entities e = Some stats /\
        stats_mainThreadTime stats = 100 /\
        auditWith networkRecords [task] 1 = Normal product /\
        In {| entity := linkOf e;
              transferSize := stats_transferSize stats;
              mainThreadTime := 100 |} (items (details product)))) /\
  (forall networkRecords tasks cpuMultiplier entities e stats,
     getSummaryByEntity networkRecords tasks cpuMultiplier = Normal entities ->
     Map_get entities e = Some stats ->
     stats_mainThreadTime stats =
     fold_left (fun time task => time + task_selfTime task * cpuMultiplier)
       (filter (chargedTo (getJavaScriptURLs networkRecords) e) tasks) 0) /\
  (forall networkRecords tasks cpuMultiplier cpuMultiplier',
     exists entities entities' product product',
       getSummaryByEntity networkRecords tasks cpuMultiplier
         = Normal entities /\
       getSummaryByEntity networkRecords tasks cpuMultiplier'
         = Normal entities' /\
       auditWith networkRecords tasks cpuMultiplier = Normal product /\
       auditWith networkRecords tasks cpuMultiplier' = Normal product' /\
       bytesView entities = bytesView entities' /\
       wastedBytes (summary (details product)) =
         wastedBytes (summary (details product')) /\
       Permutation
         (map (fun row => (entity row, transferSize row))
              (items (details product)))
         (map (fun row => (entity row, transferSize row))
              (items (details product')))).
Proof.
  split; [|split].
  - intros networkRecords task e Htime Hres.
    apply getEntitySafe_resolve in Hres.
    assert (Hone : forall c time,
      0 + 100 * c = time ->
      exists entities stats product,
        getSummaryByEntity networkRecords [task] c = Normal entities /\
        Map_get entities e = Some stats /\
        stats_mainThreadTime stats = time /\
        auditWith networkRecords [task] c = Normal product /\
        In {| entity := linkOf e;
              transferSize := stats_transferSize stats;
              mainThreadTime := time |} (items (details product))).
    { intros c time Hc.
      pose proof (one_task_entry networkRecords task c e Hres) as Hget.
      rewrite Htime, Hc in Hget.
      rewrite getSummaryByEntity_normal, auditWith_normal.
      do 3 eexists. split; [reflexivity|]. split; [exact Hget|].
      split; [reflexivity|]. split; [reflexivity|].
      apply (entry_has_row _ _ _ Hget). }
    split; apply Hone; reflexivity.
  - intros networkRecords tasks c entities e stats Hagg Hget.
    rewrite getSummaryByEntity_normal in Hagg. injection Hagg as <-.
    exact (aggregate_chargedTime _ _ _ _ _ Hget).
  - intros networkRecords tasks c c'.
    rewrite !getSummaryByEntity_normal, !auditWith_normal.
    do 4 eexists. do 4 (split; [reflexivity|]). simpl.
    assert (Hview : bytesView (aggregate networkRecords tasks c) =
                    bytesView (aggregate networkRecords tasks c')).
    { unfold aggregate. now apply bytesView_taskPass. }
    split; [exact Hview|]. split.
    + unfold totalsOf. now apply bytesView_wastedBytes.
    + eapply perm_trans; [apply Permutation_map, rowsOf_perm|].
      rewrite (bytesView_rows _ _ Hview).
      apply Permutation_map, Permutation_sym, rowsOf_perm.
Qed.

(** C6: two network records of 100 and 200 bytes and a task of self time
    50, all three resolving to the same entity, give under multiplier 1 an
    aggregate of one entry and a table of one row, for that entity, with
    [transferSize] 300 and [mainThreadTime] 50. *)
Theorem same_entity_contributions_merge request1 request2 task e :
  getEntitySafe (request_url request1) = Normal (Some e) ->
  getEntitySafe (request_url request2) = Normal (Some e) ->
  getEntitySafe
    (getAttributableURLForTask task (getJavaScriptURLs [request1; request2]))
    = Normal (Some e) ->
  request_transferSize request1 = 100 ->
  request_transferSize request2 = 200 ->
  task_selfTime task = 50 ->
  getSummaryByEntity [request1; request2] [task] 1 =
    Normal [(e, {| stats_mainThreadTime := 50; stats_transferSize := 300 |})] /\
  exists product,
    auditWith [request1; request2] [task] 1 = Normal product /\
    items (details product) =
      [{| entity := linkOf e; transferSize := 300; mainThreadTime := 50 |}] /\
    summary (details product) = {| wastedBytes := 300; wastedMs := 50 |} /\
    score product = 0.
Proof.
  intros H1 H2 Ht Hs1 Hs2 Hst.
  apply getEntitySafe_resolve in H1, H2, Ht.
  assert (Hagg : aggregate [request1; request2] [task] 1 =
    [(e, {| stats_mainThreadTime := 50; stats_transferSize := 300 |})]).
  { unfold aggregate, transferPass. simpl.
    unfold creditTask, creditTransfer. rewrite Ht, H2, H1.
    unfold getOrZero. simpl.
    rewrite Hs1, Hs2, Hst.
    repeat (destruct (entity_eq_dec e e) as [_|Hne]; [simpl|congruence]).
    reflexivity. }
  rewrite getSummaryByEntity_normal, auditWith_normal, Hagg.
  split; [reflexivity|]. eexists. split; [reflexivity|].
  unfold rowsOf, totalsOf. simpl. rewrite homepageOrEmpty_spec.
  repeat split.
Qed.

(** C10: every row comes from an entry of the aggregate and links to the
    entity's homepage, the empty string when the entity has none; an entity
    that only tasks are charged to has an entry and a row with
    [transferSize] 0, and an entity that only network records resolve to
    has an entry and a row with [mainThreadTime] 0: an entry starts from
    zeros in either pass. *)
Theorem row_link_and_zero_start :
  (forall networkRecords tasks cpuMultiplier,
     exists entities product,
       getSummaryByEntity networkRecords tasks cpuMultiplier
         = Normal entities /\
       auditWith networkRecords tasks cpuMultiplier = Normal product /\
       forall row,
         In row (items (details product)) ->
         exists e stats,
           In (e, stats) entities /\
           entity row = linkOf e /\
           transferSize row = stats_transferSize stats /\
           mainThreadTime row = stats_mainThreadTime stats /\
           (entity_homepage e = None ->
            link_url (entity row) = EmptyString)) /\
  (forall networkRecords tasks cpuMultiplier e,
     (forall r, In r networkRecords ->
                getEntitySafe (request_url r) <> Normal (Some e)) ->
     (exists t,
        In t tasks /\
        getEntitySafe
          (getAttributableURLForTask t (getJavaScriptURLs networkRecords))
          = Normal (Some e)) ->
     exists entities stats product,
       getSummaryByEntity networkRecords tasks cpuMultiplier
         = Normal entities /\
       Map_get entities e = Some stats /\
       stats_transferSize stats = 0 /\
       auditWith networkRecords tasks cpuMultiplier = Normal product /\
       In {| entity := linkOf e;
             transferSize := 0;
             mainThreadTime := stats_mainThreadTime stats |}
          (items (details product))) /\
  (forall networkRecords tasks cpuMultiplier e,
     (exists r, In r networkRecords /\
                getEntitySafe (request_url r) = Normal (Some e)) ->
     (forall t,
        In t tasks ->
        getEntitySafe
          (getAttributableURLForTask t (getJavaScriptURLs networkRecords))
          <> Normal (Some e)) ->
     exists entities stats product,
       getSummaryByEntity networkRecords tasks cpuMultiplier
         = Normal entities /\
       Map_get entities e = Some stats /\
       stats_mainThreadTime stats = 0 /\
       auditWith networkRecords tasks cpuMultiplier = Normal product /\
       In {| entity := linkOf e;
             transferSize := stats_transferSize stats;
             mainThreadTime := 0 |}
          (items (details product))).
Proof.
  split; [|split].
  - intros networkRecords tasks c.
    rewrite getSummaryByEntity_normal, auditWith_normal.
    do 2 eexists. do 2 (split; [reflexivity|]). simpl.
    intros row Hrow.
    apply (Permutation_in _ (rowsOf_perm _)) in Hrow.
    apply in_map_iff in Hrow. destruct Hrow as [[e stats] [<- Hin]].
    exists e, stats. rewrite toRow_spec. simpl.
    repeat split; try assumption. now intros ->.
  - intros networkRecords tasks c e Hrecords [t [Hin Ht]].
    apply getEntitySafe_resolve in Ht.
    rewrite getSummaryByEntity_normal, auditWith_normal.
    set (agg := aggregate networkRecords tasks c).
    assert (Hpresent : Map_get agg e <> None).
    { apply taskPass_present. right. now exists t. }
    destruct (Map_get agg e) as [stats|] eqn:Hget; [|congruence].
    assert (Hzero : stats_transferSize stats = 0).
    { rewrite <- (getOrZero_of_get _ _ _ Hget). unfold agg, aggregate.
      rewrite taskPass_transferSize. unfold getOrZero, transferPass.
      rewrite transferPass_from_other; [reflexivity|].
      intros r Hr Hres. apply (Hrecords r Hr).
      now apply getEntitySafe_resolve. }
    exists agg, stats. eexists.
    split; [reflexivity|]. split; [exact Hget|]. split; [exact Hzero|].
    split; [reflexivity|]. simpl. rewrite <- Hzero.
    now apply entry_has_row.
  - intros networkRecords tasks c e [r [Hin Hr]] Htasks.
    apply getEntitySafe_resolve in Hr.
    rewrite getSummaryByEntity_normal, auditWith_normal.
    set (agg := aggregate networkRecords tasks c).
    assert (Hsame : Map_get agg e = Map_get (transferPass networkRecords) e).
    { apply taskPass_other. intros t Ht Hres. apply (Htasks t Ht).
      now apply getEntitySafe_resolve. }
    assert (Hpresent : Map_get (transferPass networkRecords) e <> None).
    { apply transferPass_from_present. right. now exists r. }
    destruct (Map_get (transferPass networkRecords) e) as [stats|] eqn:Hget;
      [|congruence].
    assert (Hzero : stats_mainThreadTime stats = 0).
    { rewrite <- (getOrZero_of_get _ _ _ Hget).
      apply transferPass_mainThreadTime. }
    exists agg, stats. eexists.
    split; [reflexivity|]. split; [exact Hsame|]. split; [exact Hzero|].
    split; [reflexivity|]. simpl. rewrite <- Hzero.
    now apply entry_has_row.
Qed.

(** ** Further properties of the aggregation and the audit *)

(** X1: an entity has no entry in the aggregate exactly when no network
    record resolves to it and no task is charged to it. *)
Theorem entry_iff_contribution networkRecords tasks cpuMultiplier e :
  exists entities,
    getSummaryByEntity networkRecords tasks cpuMultiplier = Normal entities /\
    (Map_get entities e = None <->
     (forall r, In r networkRecords ->
                getEntitySafe (request_url r) <> Normal (Some e)) /\
     (forall t, In t tasks ->
                getEntitySafe
                  (getAttributableURLForTask t
                     (getJavaScriptURLs networkRecords))
                <> Normal (Some e))).
Proof.
  rewrite getSummaryByEntity_normal. eexists. split; [reflexivity|].
  rewrite aggregate_None. split; intros [Hr Ht]; split.
  - intros r Hin H. apply (Hr r Hin). now apply getEntitySafe_resolve.
  - intros t Hin H. apply (Ht t Hin). now apply getEntitySafe_resolve.
  - intros r Hin H. apply (Hr r Hin). now apply getEntitySafe_resolve.
  - intros t Hin H. apply (Ht t Hin). now apply getEntitySafe_resolve.
Qed.

(** X2: the transfer size of an entry is the sum of the transfer sizes of
    the network records that resolve to its entity; tasks and the
    multiplier have no part in it. *)
Theorem entry_bytes_are_its_records networkRecords tasks cpuMultiplier :
  exists entities,
    getSummaryByEntity networkRecords tasks cpuMultiplier = Normal entities /\
    forall e stats,
      Map_get entities e = Some stats ->
      stats_transferSize stats ==
      sumOf (map request_transferSize (filter (resolvesTo e) networkRecords)).
Proof.
  rewrite getSummaryByEntity_normal. eexists. split; [reflexivity|].
  intros e stats Hget. rewrite <- (getOrZero_of_get _ _ _ Hget).
  unfold aggregate, transferPass.
  rewrite taskPass_transferSize, transferPass_from_transferSize.
  unfold getOrZero. simpl. ring.
Qed.

(** X3: the keys of the aggregate are the entities the records and then
    the tasks resolve to, each once, in the order of their first
    contribution; the table has as many rows. *)
Theorem entries_in_first_contribution_order
  networkRecords tasks cpuMultiplier :
  exists entities product,
    getSummaryByEntity networkRecords tasks cpuMultiplier = Normal entities /\
    auditWith networkRecords tasks cpuMultiplier = Normal product /\
    map fst entities = firstOccurrences (contributions networkRecords tasks) /\
    List.length (items (details product)) =
      List.length (firstOccurrences (contributions networkRecords tasks)).
Proof.
  rewrite getSummaryByEntity_normal, auditWith_normal.
  do 2 eexists. do 2 (split; [reflexivity|]). simpl.
  assert (Hkeys : map fst (aggregate networkRecords tasks cpuMultiplier) =
                  firstOccurrences (contributions networkRecords tasks)).
  { unfold aggregate, transferPass, firstOccurrences, contributions.
    now rewrite taskPass_keys, transferPass_from_keys, fold_left_app. }
  split; [exact Hkeys|].
  rewrite <- Hkeys, (Permutation_length (rowsOf_perm _)), !length_map.
  reflexivity.
Qed.

(** X4: [wastedBytes] is the sum of the transfer sizes of the network
    records that resolve to an entity; [wastedMs] is the times of the
    entities added from 0 in the order of their first contribution, the
    time of an entity being what the loop over the tasks added for it
    ([chargedTime]). *)
Theorem summary_totals_of_inputs networkRecords tasks cpuMultiplier :
  exists product,
    auditWith networkRecords tasks cpuMultiplier = Normal product /\
    wastedBytes (summary (details product)) ==
      sumOf (map request_transferSize (filter resolvable networkRecords)) /\
    wastedMs (summary (details product)) =
      fold_left
        (fun total e =>
           total
           + chargedTime (getJavaScriptURLs networkRecords) cpuMultiplier e
               tasks)
        (firstOccurrences (contributions networkRecords tasks)) 0.
Proof.
  rewrite auditWith_normal. eexists. split; [reflexivity|]. simpl.
  set (agg := aggregate networkRecords tasks cpuMultiplier).
  split.
  - destruct (totalsOf_totals agg) as [Hb _]. rewrite Hb.
    apply aggregate_totals.
  - unfold totalsOf. rewrite mapEntries_wastedMs. simpl.
    rewrite <- (aggregate_keys networkRecords tasks cpuMultiplier).
    apply fold_time_by_key. intros [e stats] Hin. simpl.
    apply aggregate_chargedTime.
    apply In_Map_get; [apply aggregate_NoDup|exact Hin].
Qed.

(** X5: when no transfer size, no self time and not the multiplier is
    negative, no row has a negative transfer size, main-thread time or
    sort value, and neither total of the summary is negative. *)
Theorem nonnegative_inputs_give_nonnegative_table
  networkRecords tasks cpuMultiplier :
  (forall r, In r networkRecords -> 0 <= request_transferSize r) ->
  (forall t, In t tasks -> 0 <= task_selfTime t) ->
  0 <= cpuMultiplier ->
  exists product,
    auditWith networkRecords tasks cpuMultiplier = Normal product /\
    (forall row,
       In row (items (details product)) ->
       0 <= transferSize row /\ 0 <= mainThreadTime row /\
       0 <= computeSortValue row) /\
    0 <= wastedBytes (summary (details product)) /\
    0 <= wastedMs (summary (details product)).
Proof.
  intros Hrecords Htasks Hc.
  rewrite auditWith_normal. eexists. split; [reflexivity|]. simpl.
  pose proof (aggregate_nonNegative _ _ _ Hrecords Htasks Hc) as Hagg.
  set (agg := aggregate networkRecords tasks cpuMultiplier) in *.
  rewrite Forall_forall in Hagg.
  split; [|split].
  - intros row Hrow.
    apply (Permutation_in _ (rowsOf_perm _)) in Hrow.
    apply in_map_iff in Hrow. destruct Hrow as [[e stats] [<- Hin]].
    destruct (Hagg _ Hin) as [Ht Hb]. simpl in Ht, Hb.
    unfold computeSortValue. simpl. repeat split; try assumption.
    unfold Qdiv. pose proof (Qmult_le_0_compat _ (/ 1024) Hb) as Hd.
    assert (H1024 : 0 <= / 1024) by (vm_compute; discriminate).
    specialize (Hd H1024). lra.
  - destruct (totalsOf_totals agg) as [Hb _]. rewrite Hb.
    apply sumOf_nonneg. rewrite Forall_forall. intros x Hx.
    apply in_map_iff in Hx. destruct Hx as [kv [<- Hin]].
    apply (Hagg _ Hin).
  - destruct (totalsOf_totals agg) as [_ Hm]. rewrite Hm.
    apply sumOf_nonneg. rewrite Forall_forall. intros x Hx.
    apply in_map_iff in Hx. destruct Hx as [kv [<- Hin]].
    apply (Hagg _ Hin).
Qed.



(** X8: a task whose attributable URL resolves to no entity is skipped:
    with it or without it, wherever it stands among the tasks, the
    aggregate and the audit's result are the same. *)
Theorem unresolved_task_contributes_nothing
  networkRecords before task after cpuMultiplier :
  getEntitySafe
    (getAttributableURLForTask task (getJavaScriptURLs networkRecords))
    = Normal None ->
  getSummaryByEntity networkRecords (before ++ task :: after) cpuMultiplier =
  getSummaryByEntity networkRecords (before ++ after) cpuMultiplier /\
  auditWith networkRecords (before ++ task :: after) cpuMultiplier =
  auditWith networkRecords (before ++ after) cpuMultiplier.
Proof.
  intros Hnone. apply getEntitySafe_resolve in Hnone.
  assert (Hagg : aggregate networkRecords (before ++ task :: after)
                   cpuMultiplier =
                 aggregate networkRecords (before ++ after) cpuMultiplier).
  { unfold aggregate. rewrite !fold_left_app. simpl.
    now rewrite creditTask_unresolved. }
  rewrite !getSummaryByEntity_normal, !auditWith_normal, Hagg.
  split; reflexivity.
Qed.

(** X9: the order of the tasks does not matter to which entities have an
    entry nor to their bytes: for reordered tasks the same entities have an
    entry, with the same transfer size, the table has as many rows and
    [wastedBytes] is equal. *)
Theorem task_order_is_immaterial networkRecords tasks tasks' cpuMultiplier :
  Permutation tasks tasks' ->
  exists entities entities' product product',
    getSummaryByEntity networkRecords tasks cpuMultiplier = Normal entities /\
    getSummaryByEntity networkRecords tasks' cpuMultiplier
      = Normal entities' /\
    auditWith networkRecords tasks cpuMultiplier = Normal product /\
    auditWith networkRecords tasks' cpuMultiplier = Normal product' /\
    (forall e,
       match Map_get entities e, Map_get entities' e with
       | Some stats, Some stats' =>
           stats_transferSize stats = stats_transferSize stats'
       | None, None => True
       | _, _ => False
       end) /\
    List.length (items (details product)) =
      List.length (items (details product')) /\
    wastedBytes (summary (details product)) ==
      wastedBytes (summary (details product')).
Proof.
  intros Hperm.
  rewrite !getSummaryByEntity_normal, !auditWith_normal.
  do 4 eexists. do 4 (split; [reflexivity|]). simpl.
  set (agg := aggregate networkRecords tasks cpuMultiplier).
  set (agg' := aggregate networkRecords tasks' cpuMultiplier).
  assert (Hnone : forall e, Map_get agg e = None <-> Map_get agg' e = None).
  { intros e. unfold agg, agg'. rewrite !aggregate_None.
    split; intros [Hr Ht]; (split; [exact Hr|]); intros t Hin; apply Ht.
    - now apply (Permutation_in _ (Permutation_sym Hperm)).
    - now apply (Permutation_in _ Hperm). }
  split; [|split].
  - intros e. specialize (Hnone e).
    destruct (Map_get agg e) as [stats|] eqn:Hget;
    destruct (Map_get agg' e) as [stats'|] eqn:Hget'.
    + rewrite <- (getOrZero_of_get _ _ _ Hget).
      rewrite <- (getOrZero_of_get _ _ _ Hget').
      unfold agg, agg', aggregate. now rewrite !taskPass_transferSize.
    + destruct Hnone as [_ H]. discriminate (H eq_refl).
    + destruct Hnone as [H _]. discriminate (H eq_refl).
    + exact I.
  - rewrite !(Permutation_length (rowsOf_perm _)), !length_map.
    rewrite <- (length_map fst agg), <- (length_map fst agg').
    apply Permutation_length, NoDup_Permutation.
    + apply aggregate_NoDup.
    + apply aggregate_NoDup.
    + intros e. specialize (Hnone e).
      rewrite !Map_get_None_keys in Hnone.
      destruct (in_dec entity_eq_dec e (map fst agg)) as [Hin|Hout];
      destruct (in_dec entity_eq_dec e (map fst agg')) as [Hin'|Hout'];
        tauto.
  - destruct (totalsOf_totals agg) as [Hb _].
    destruct (totalsOf_totals agg') as [Hb' _].
    unfold agg, agg' in *.
    now rewrite Hb, Hb', !aggregate_totals.
Qed.


End Audit.

(** ** Worked examples on the sample knowledge base *)

Local Abbreviation getEntitySafe' :=
  (getEntitySafe Fixture.Entity Fixture.getEntity).
Local Abbreviation getSummaryByEntity' :=
  (getSummaryByEntity Fixture.Entity Fixture.Entity_eq_dec Fixture.getEntity
     Fixture.getJavaScriptURLs Fixture.getAttributableURLForTask).
Local Abbreviation auditWith' :=
  (auditWith Fixture.Entity Fixture.Entity_eq_dec Fixture.name
     Fixture.homepage Fixture.getEntity Fixture.getJavaScriptURLs
     Fixture.getAttributableURLForTask).
Local Abbreviation Map_get' :=
  (Map_get Fixture.Entity Fixture.Entity_eq_dec).
Local Abbreviation linkOf' :=
  (linkOf Fixture.Entity Fixture.name Fixture.homepage).

(** The record [{url: "not a url", transferSize: 500}] alone: the lookup
    throws, and the table is empty. *)
Lemma unresolved_transfer_example :
  getEntitySafe' "not a url" = Normal None /\
  exists product,
    auditWith' [Fixture.notAUrl] [] 1 = Normal product /\
    items (details product) = [] /\
    wastedBytes (summary (details product)) = 0.
Proof.
  split; [reflexivity|].
  destruct
    (unresolved_transfer_contributes_nothing
       Fixture.Entity Fixture.Entity_eq_dec Fixture.name Fixture.homepage
       Fixture.getEntity Fixture.getJavaScriptURLs
       Fixture.getAttributableURLForTask Fixture.notAUrl eq_refl)
    as (_ & _ & _ & H).
  exact (H 1).
Defined.

(** One task of self time 100 charged to Google Analytics, whose script
    is among the records. *)
Lemma cpuMultiplier_example :
  task_selfTime (Fixture.analyticsTask 100) = 100 /\
  getEntitySafe'
    (Fixture.getAttributableURLForTask (Fixture.analyticsTask 100)
       (Fixture.getJavaScriptURLs [Fixture.analyticsScript]))
    = Normal (Some Fixture.GoogleAnalytics) /\
  (exists entities stats product,
     getSummaryByEntity' [Fixture.analyticsScript] [Fixture.analyticsTask 100] 4
       = Normal entities /\
     Map_get' entities Fixture.GoogleAnalytics = Some stats /\
     stats_mainThreadTime stats = 400 /\
     auditWith' [Fixture.analyticsScript] [Fixture.analyticsTask 100] 4
       = Normal product /\
     In {| entity := linkOf' Fixture.GoogleAnalytics;
           transferSize := stats_transferSize stats;
           mainThreadTime := 400 |} (items (details product))) /\
  (exists entities stats product,
     getSummaryByEntity' [Fixture.analyticsScript] [Fixture.analyticsTask 100] 1
       = Normal entities /\
     Map_get' entities Fixture.GoogleAnalytics = Some stats /\
     stats_mainThreadTime stats = 100 /\
     auditWith' [Fixture.analyticsScript] [Fixture.analyticsTask 100] 1
       = Normal product /\
     In {| entity := linkOf' Fixture.GoogleAnalytics;
           transferSize := stats_transferSize stats;
           mainThreadTime := 100 |} (items (details product))).
Proof.
  split; [reflexivity|]. split; [reflexivity|].
  apply
    (proj1
       (cpuMultiplier_scales_time_only
          Fixture.Entity Fixture.Entity_eq_dec Fixture.name Fixture.homepage
          Fixture.getEntity Fixture.getJavaScriptURLs
          Fixture.getAttributableURLForTask)
       [Fixture.analyticsScript] (Fixture.analyticsTask 100)
       Fixture.GoogleAnalytics);
    reflexivity.
Defined.

(** The script (100 bytes) and the beacon (200 bytes) of Google Analytics
    and one task of self time 50 in the script. *)
Lemma merge_example :
  getEntitySafe' (request_url Fixture.analyticsScript)
    = Normal (Some Fixture.GoogleAnalytics) /\
  getEntitySafe' (request_url Fixture.analyticsBeacon)
    = Normal (Some Fixture.GoogleAnalytics) /\
  getEntitySafe'
    (Fixture.getAttributableURLForTask (Fixture.analyticsTask 50)
       (Fixture.getJavaScriptURLs
          [Fixture.analyticsScript; Fixture.analyticsBeacon]))
    = Normal (Some Fixture.GoogleAnalytics) /\
  getSummaryByEntity' [Fixture.analyticsScript; Fixture.analyticsBeacon]
    [Fixture.analyticsTask 50] 1 =
    Normal
      [(Fixture.GoogleAnalytics,
        {| stats_mainThreadTime := 50; stats_transferSize := 300 |})] /\
  exists product,
    auditWith' [Fixture.analyticsScript; Fixture.analyticsBeacon]
      [Fixture.analyticsTask 50] 1 = Normal product /\
    items (details product) =
      [{| entity := linkOf' Fixture.GoogleAnalytics;
          transferSize := 300;
          mainThreadTime := 50 |}] /\
    summary (details product) = {| wastedBytes := 300; wastedMs := 50 |} /\
    score product = 0.
Proof.
  do 3 (split; [reflexivity|]).
  apply
    (same_entity_contributions_merge
       Fixture.Entity Fixture.Entity_eq_dec Fixture.name Fixture.homepage
       Fixture.getEntity Fixture.getJavaScriptURLs
       Fixture.getAttributableURLForTask
       Fixture.analyticsScript Fixture.analyticsBeacon
       (Fixture.analyticsTask 50) Fixture.GoogleAnalytics);
    reflexivity.
Defined.

(** An entity with no homepage that only a task is charged to: its row
    links to the empty string and has no bytes. *)
Lemma task_only_entity_example :
  getEntitySafe' (request_url Fixture.facebookScript)
    = Normal (Some Fixture.Facebook) /\
  getEntitySafe'
    (Fixture.getAttributableURLForTask Fixture.anonymousTask
       (Fixture.getJavaScriptURLs [Fixture.facebookScript]))
    = Normal (Some Fixture.Anonymous) /\
  Fixture.homepage Fixture.Anonymous = None /\
  exists entities stats product,
    getSummaryByEntity' [Fixture.facebookScript] [Fixture.anonymousTask] 4
      = Normal entities /\
    Map_get' entities Fixture.Anonymous = Some stats /\
    stats_transferSize stats = 0 /\
    auditWith' [Fixture.facebookScript] [Fixture.anonymousTask] 4
      = Normal product /\
    In {| entity :=
            {| link_type := "link";
               link_text := "Anonymous";
               link_url := EmptyString |};
          transferSize := 0;
          mainThreadTime := stats_mainThreadTime stats |}
       (items (details product)).
Proof.
  do 3 (split; [reflexivity|]).
  apply
    (proj1 (proj2
       (row_link_and_zero_start
          Fixture.Entity Fixture.Entity_eq_dec Fixture.name Fixture.homepage
          Fixture.getEntity Fixture.getJavaScriptURLs
          Fixture.getAttributableURLForTask))
       [Fixture.facebookScript] [Fixture.anonymousTask] 4 Fixture.Anonymous).
  - intros r [<-|[]]. vm_compute. discriminate.
  - exists Fixture.anonymousTask. split; [now left|reflexivity].
Defined.

Local Abbreviation audit' :=
  (audit Fixture.Entity Fixture.Entity_eq_dec Fixture.name
     Fixture.homepage Fixture.getEntity Fixture.getJavaScriptURLs
     Fixture.getAttributableURLForTask).

(** Two records, one of them unresolvable, and a task under multiplier 4:
    nothing in the table is negative. *)
Lemma nonnegative_table_example :
  exists product,
    auditWith' [Fixture.analyticsScript; Fixture.notAUrl]
      [Fixture.analyticsTask 50] 4 = Normal product /\
    (forall row,
       In row (items (details product)) ->
       0 <= transferSize row /\ 0 <= mainThreadTime row /\
       0 <= computeSortValue row) /\
    0 <= wastedBytes (summary (details product)) /\
    0 <= wastedMs (summary (details product)).
Proof.
  apply
    (nonnegative_inputs_give_nonnegative_table
       Fixture.Entity Fixture.Entity_eq_dec Fixture.name Fixture.homepage
       Fixture.getEntity Fixture.getJavaScriptURLs
       Fixture.getAttributableURLForTask
       [Fixture.analyticsScript; Fixture.notAUrl]
       [Fixture.analyticsTask 50] 4).
  - intros r [<-|[<-|[]]]; vm_compute; discriminate.
  - intros t [<-|[]]. vm_compute. discriminate.
  - vm_compute. discriminate.
Defined.


(** A task with no attributable URL between two tasks that resolve. *)
Lemma unresolved_task_example :
  getEntitySafe'
    (Fixture.getAttributableURLForTask Fixture.otherTask
       (Fixture.getJavaScriptURLs [Fixture.analyticsScript]))
    = Normal None /\
  getSummaryByEntity' [Fixture.analyticsScript]
    [Fixture.analyticsTask 50; Fixture.otherTask; Fixture.anonymousTask] 4 =
  getSummaryByEntity' [Fixture.analyticsScript]
    [Fixture.analyticsTask 50; Fixture.anonymousTask] 4 /\
  auditWith' [Fixture.analyticsScript]
    [Fixture.analyticsTask 50; Fixture.otherTask; Fixture.anonymousTask] 4 =
  auditWith' [Fixture.analyticsScript]
    [Fixture.analyticsTask 50; Fixture.anonymousTask] 4.
Proof.
  split; [reflexivity|].
  exact
    (unresolved_task_contributes_nothing
       Fixture.Entity Fixture.Entity_eq_dec Fixture.name Fixture.homepage
       Fixture.getEntity Fixture.getJavaScriptURLs
       Fixture.getAttributableURLForTask
       [Fixture.analyticsScript] [Fixture.analyticsTask 50]
       Fixture.otherTask [Fixture.anonymousTask] 4 eq_refl).
Defined.

(** Two tasks in either order. *)
Lemma task_order_example :
  exists entities entities' product product',
    getSummaryByEntity' [Fixture.analyticsScript]
      [Fixture.analyticsTask 50; Fixture.anonymousTask] 4
      = Normal entities /\
    getSummaryByEntity' [Fixture.analyticsScript]
      [Fixture.anonymousTask; Fixture.analyticsTask 50] 4
      = Normal entities' /\
    auditWith' [Fixture.analyticsScript]
      [Fixture.analyticsTask 50; Fixture.anonymousTask] 4 = Normal product /\
    auditWith' [Fixture.analyticsScript]
      [Fixture.anonymousTask; Fixture.analyticsTask 50] 4 = Normal product' /\
    (forall e,
       match Map_get' entities e, Map_get' entities' e with
       | Some stats, Some stats' =>
           stats_transferSize stats = stats_transferSize stats'
       | None, None => True
       | _, _ => False
       end) /\
    List.length (items (details product)) =
      List.length (items (details product')) /\
    wastedBytes (summary (details product)) ==
      wastedBytes (summary (details product')).
Proof.
  apply
    (task_order_is_immaterial
       Fixture.Entity Fixture.Entity_eq_dec Fixture.name Fixture.homepage
       Fixture.getEntity Fixture.getJavaScriptURLs
       Fixture.getAttributableURLForTask
       [Fixture.analyticsScript]
       [Fixture.analyticsTask 50; Fixture.anonymousTask]
       [Fixture.anonymousTask; Fixture.analyticsTask 50] 4).
  apply perm_swap.
Defined.


(** ** The summary and the rows on doubles *)

Section AuditOnDoubles.

Variable ThirdPartyEntity : Type.
Variable entity_eq_dec :
  forall a b : ThirdPartyEntity, {a = b} + {a <> b}.
Variable entity_name : ThirdPartyEntity -> string.
Variable entity_homepage : ThirdPartyEntity -> option string.
Variable thirdPartyWeb_getEntity :
  string -> Completion (option ThirdPartyEntity).
Variable getJavaScriptURLs : list Binary64.NetworkRequest -> list string.
Variable getAttributableURLForTask :
  Binary64.TaskNode -> list string -> string.

(** The helpers once more, on records with rational numbers. *)
Variable getJavaScriptURLsQ : list NetworkRequest -> list string.
Variable getAttributableURLForTaskQ : TaskNode -> list string -> string.

Local Abbreviation auditWithQ :=
  (auditWith ThirdPartyEntity entity_eq_dec entity_name entity_homepage
     thirdPartyWeb_getEntity getJavaScriptURLsQ getAttributableURLForTaskQ).
Local Abbreviation getSummaryByEntity64 :=
  (Binary64.getSummaryByEntity ThirdPartyEntity entity_eq_dec
     thirdPartyWeb_getEntity getJavaScriptURLs getAttributableURLForTask).
Local Abbreviation auditWith64 :=
  (Binary64.auditWith ThirdPartyEntity entity_eq_dec entity_name
     entity_homepage thirdPartyWeb_getEntity getJavaScriptURLs
     getAttributableURLForTask).
Local Abbreviation toRow64 :=
  (Binary64.toRow ThirdPartyEntity entity_name entity_homepage).

Lemma forOf_returns {A S : Type} (body : S -> A -> Completion S) :
  (forall s a, exists s', body s a = Normal s') ->
  forall items s, exists s', forOf body items s = Normal s'.
Proof.
  intros Hbody items. induction items as [|a items IH]; intros s; simpl.
  - now exists s.
  - destruct (Hbody s a) as [s' ->]. simpl. apply IH.
Qed.

Lemma getEntitySafe64_returns url :
  exists found,
    Binary64.getEntitySafe ThirdPartyEntity thirdPartyWeb_getEntity url
    = Normal found.
Proof.
  unfold Binary64.getEntitySafe, tryCatch.
  destruct (thirdPartyWeb_getEntity url); now eexists.
Qed.

Lemma getSummaryByEntity64_returns networkRecords tasks cpuMultiplier :
  exists entities,
    getSummaryByEntity64 networkRecords tasks cpuMultiplier = Normal entities.
Proof.
  unfold Binary64.getSummaryByEntity.
  destruct (forOf_returns
              (Binary64.addTransfer ThirdPartyEntity entity_eq_dec
                 thirdPartyWeb_getEntity)) with (items := networkRecords)
      (s := @nil (ThirdPartyEntity * Binary64.EntityStats))
    as [entities ->].
  - intros s request. unfold Binary64.addTransfer.
    destruct (getEntitySafe64_returns (Binary64.request_url request))
      as [[e|] ->]; simpl; now eexists.
  - simpl.
    destruct (forOf_returns
                (Binary64.addTask ThirdPartyEntity entity_eq_dec
                   thirdPartyWeb_getEntity getAttributableURLForTask
                   (getJavaScriptURLs networkRecords) cpuMultiplier))
      with (items := tasks) (s := entities) as [entities' ->].
    + intros s task. unfold Binary64.addTask.
      destruct (getEntitySafe64_returns
                  (getAttributableURLForTask task
                     (getJavaScriptURLs networkRecords)))
        as [[e|] ->]; simpl; now eexists.
    + simpl. now eexists.
Qed.

Lemma mapEntries64_rows_and_totals entries s :
  Binary64.mapEntries ThirdPartyEntity entity_name entity_homepage entries s =
  (map toRow64 entries,
   {| Binary64.wastedBytes :=
        fold_left PrimFloat.add
          (map Binary64.transferSize (map toRow64 entries))
          (Binary64.wastedBytes s);
      Binary64.wastedMs :=
        fold_left PrimFloat.add
          (map Binary64.mainThreadTime (map toRow64 entries))
          (Binary64.wastedMs s) |}).
Proof.
  revert s. induction entries as [|[e stats] entries IH]; intros s.
  - now destruct s.
  - cbn [Binary64.mapEntries]. rewrite IH. reflexivity.
Qed.

Lemma insertSorted64_perm {A : Type} (compareFn : A -> A -> float) a l :
  Permutation (Binary64.insertSorted compareFn a l) (a :: l).
Proof.
  induction l as [|b l IH]; simpl.
  - apply Permutation_refl.
  - destruct (PrimFloat.ltb 0 (compareFn a b)).
    + apply perm_trans with (b :: a :: l); [now apply perm_skip|].
      apply perm_swap.
    + apply Permutation_refl.
Qed.

Lemma Array_sort64_perm {A : Type} (compareFn : A -> A -> float) l :
  Permutation (Binary64.Array_sort compareFn l) l.
Proof.
  induction l as [|a l IH]; simpl.
  - apply perm_nil.
  - apply perm_trans with (a :: Binary64.Array_sort compareFn l).
    + apply insertSorted64_perm.
    + now apply perm_skip.
Qed.

(** C1 (as amended): on doubles, for every input the audit returns, and
    [summary.wastedBytes] and [summary.wastedMs] are the transfer sizes
    and the main-thread times of the aggregate's entries added from 0,
    from left to right, in the order of the aggregate, which is the order
    of the rows before they are sorted; the rows of the table are those
    rows in another order.  For the transfer sizes, which are whole
    numbers of bytes and add without rounding, the order does not matter:
    in exact arithmetic the transfer sizes of the rows of the table add up
    to [summary.wastedBytes]. *)
Theorem summary_totals_rows_in_map_order :
  (forall networkRecords tasks cpuMultiplier,
     exists entities product,
       getSummaryByEntity64 networkRecords tasks cpuMultiplier
         = Normal entities /\
       auditWith64 networkRecords tasks cpuMultiplier = Normal product /\
       Binary64.wastedBytes (Binary64.summary (Binary64.details product)) =
         Binary64.sumLeft (map Binary64.transferSize (map toRow64 entities)) /\
       Binary64.wastedMs (Binary64.summary (Binary64.details product)) =
         Binary64.sumLeft
           (map Binary64.mainThreadTime (map toRow64 entities)) /\
       Permutation (Binary64.items (Binary64.details product))
         (map toRow64 entities)) /\
  (forall networkRecords tasks cpuMultiplier,
     exists product,
       auditWithQ networkRecords tasks cpuMultiplier = Normal product /\
       sumOf (map transferSize (items (details product))) ==
         wastedBytes (summary (details product))).
Proof.
  split.
  - intros networkRecords tasks cpuMultiplier.
    destruct (getSummaryByEntity64_returns networkRecords tasks cpuMultiplier)
      as [entities Hagg].
    exists entities. unfold Binary64.auditWith. rewrite Hagg. simpl.
    rewrite mapEntries64_rows_and_totals.
    eexists. split; [reflexivity|]. split; [reflexivity|]. simpl.
    split; [reflexivity|]. split; [reflexivity|].
    apply Array_sort64_perm.
  - intros networkRecords tasks cpuMultiplier.
    rewrite auditWith_normal. eexists. split; [reflexivity|]. simpl.
    apply rows_bytes_total.
Qed.

End AuditOnDoubles.

(** Three tasks of 0.1, 0.4 and 0.2 ms charged to three entities, no
    record, multiplier 1: the summary adds 0.1 + 0.4 + 0.2 in the order of
    the aggregate and has [wastedMs] 0.7 (0.69999999999999996); the rows
    are sorted to 0.4, 0.2, 0.1 and their times add up, from either end,
    to 0.7000000000000001. *)
Lemma summary_differs_from_sorted_rows_sum :
  exists product,
    Binary64.auditWith Fixture.Entity Fixture.Entity_eq_dec Fixture.name
      Fixture.homepage Fixture.getEntity Binary64.sampleJavaScriptURLs
      Binary64.sampleAttributableURL [] Binary64.threeTasks 1%float
      = Normal product /\
    Binary64.sumLeft
      (map Binary64.mainThreadTime
         (Binary64.items (Binary64.details product)))
      <> Binary64.wastedMs (Binary64.summary (Binary64.details product)) /\
    PrimFloat.eqb
      (Binary64.sumLeft
         (map Binary64.mainThreadTime
            (Binary64.items (Binary64.details product))))
      (Binary64.wastedMs (Binary64.summary (Binary64.details product)))
      = false /\
    PrimFloat.eqb
      (fold_right PrimFloat.add 0%float
         (map Binary64.mainThreadTime
            (Binary64.items (Binary64.details product))))
      (Binary64.wastedMs (Binary64.summary (Binary64.details product)))
      = false.
Proof.
  eexists. split; [reflexivity|]. split; [|split; reflexivity].
  intros H.
  apply (f_equal (fun x => PrimFloat.eqb x 0x1.6666666666666p-1%float)) in H.
  vm_compute in H. discriminate.
Qed.


End ThirdPartySummary.
